(** * dropcam: a shallow embedding of [dropcam.py]

    The module is a thin client of a camera vendor's HTTP interface: a
    transport function [request], an account class [Dropcam] that logs in and
    lists cameras, a [Camera] class with property setting, event queries and
    image retrieval, and a passive [Event] class.

    The embedding keeps the program's shape.  Python values are a tagged
    union; instances live in a heap of attribute dictionaries, so that a
    camera's back-reference to its account is a real reference; every
    function is a computation over an explicit [world] (heap, the calls made
    to the HTTP library, the file system, module globals and the clock) that
    either returns or raises.  The HTTP library, the JSON decoder and the
    interpreter's [str] of containers are not part of the repository: they
    enter through the [Runtime] class. *)

From Stdlib Require Import ZArith String Ascii List Lia.
From Corelib Require Import PrimFloat.
From Stdlib Require Import Floats.SpecFloat Floats.FloatOps.
From stdpp Require Import gmap strings list fin_maps pretty.

Set Warnings "-register-all".
#[local] Open Scope string_scope.
#[local] Open Scope Z_scope.

(** ** Python values *)

(** What [json.loads] produces (None, bool, int, float, unicode, list, dict
    with string keys), plus references to instances of the module's classes. *)
Inductive value :=
  | VNone
  | VBool (b : bool)
  | VInt (z : Z)
  | VFloat (f : float)
  | VStr (s : string)
  | VList (l : list value)
  | VDict (d : gmap string value)
  | VRef (l : nat).

(** Exceptions, by class.  [Exception] is the generic class raised by
    [request] and [Dropcam.cameras] with its argument tuple; [ConnectionError]
    is the module's own subclass of IOError; [LibraryError] stands for
    whatever the HTTP library or the JSON decoder raise themselves. *)
Inductive exn :=
  | Exception (args : list value)
  | ConnectionError (args : list value)
  | TypeError
  | AttributeError
  | KeyError
  | IndexError
  | ValueError
  | OverflowError
  | IOError
  | NameError (name : string)
  | LibraryError (what : string).

Inductive result (A : Type) :=
  | Ok (a : A)
  | Raise (e : exn).
Arguments Ok {A} a.
Arguments Raise {A} e.

(** ** The HTTP library's interface *)

(** A response object, as far as the module reads it: [resp.status_code],
    [resp.ok], [resp.reason], [resp.headers] (keyed by lower-case header
    name) and [resp.content]. *)
Record response := {
  status_code : Z;
  ok : bool;
  reason : string;
  headers : gmap string string;
  content : string
}.

(** One call of [requests.get] or [requests.post]: which of the two, the
    url, and the keyword arguments.  [rq_params] is the [params=] argument,
    which the library sends in the url's query string; [rq_data] is the
    [data=] argument, the request body. *)
Record http_call := {
  rq_method : string;
  rq_url : string;
  rq_params : gmap string value;
  rq_data : option (gmap string value);
  rq_headers : gmap string value
}.

(** ** Heap and world *)

Inductive pyclass := ClsDropcam | ClsCamera | ClsEvent.

(** An instance: its class and its [__dict__]. *)
Record object := Obj {
  obj_class : pyclass;
  obj_dict : gmap string value
}.

Record world := {
  heap : gmap nat object;          (* instances, by address *)
  sent : list http_call;           (* calls made to the HTTP library, oldest first *)
  files : gmap string string;      (* contents of the files, by path *)
  open_files : gmap nat string;    (* open file objects: the path each writes to *)
  globals : gmap string value;     (* data bound at module level *)
  clock : Z                        (* int(time.time()) *)
}.

Definition set_heap (h : gmap nat object) (w : world) : world :=
  {| heap := h; sent := sent w; files := files w; open_files := open_files w;
     globals := globals w; clock := clock w |}.

Definition set_sent (s : list http_call) (w : world) : world :=
  {| heap := heap w; sent := s; files := files w; open_files := open_files w;
     globals := globals w; clock := clock w |}.

Definition set_files (fs : gmap string string) (op : gmap nat string) (w : world) : world :=
  {| heap := heap w; sent := sent w; files := fs; open_files := op;
     globals := globals w; clock := clock w |}.

(** What the program gets from outside the repository. *)
Class Runtime := {
  (* the HTTP library and the vendor behind it: the outcome of a call, given
     the calls made before it; the library may raise instead of returning *)
  http : list http_call -> http_call -> result response;
  (* json.loads *)
  json_loads : string -> result value;
  (* str() of floats, containers and instances *)
  py_repr : value -> string;
  (* dict.update with a sequence of pairs instead of a mapping *)
  update_from_sequence : list value -> gmap string value -> result (gmap string value);
  (* whether open(path, "wb") succeeds *)
  writable : string -> bool
}.

(** ** Computations that return or raise *)

Definition M (A : Type) : Type := world -> result A * world.

Definition ret {A} (a : A) : M A := fun w => (Ok a, w).
Definition raise {A} (e : exn) : M A := fun w => (Raise e, w).
Definition lift {A} (r : result A) : M A := fun w => (r, w).

Definition bind {A B} (m : M A) (k : A -> M B) : M B :=
  fun w =>
    match m w with
    | (Ok a, w') => k a w'
    | (Raise e, w') => (Raise e, w')
    end.

Notation "x <- m ;; k" := (bind m (fun x => k))
  (at level 100, m at next level, right associativity).
Notation "m ;;; k" := (bind m (fun _ => k))
  (at level 100, right associativity).

(** ** Built-in operations on values *)

(** Truth value, as [if seconds:] tests it. *)
Definition py_truthy (v : value) : bool :=
  match v with
  | VNone => false
  | VBool b => b
  | VInt z => negb (z =? 0)
  | VFloat f => negb (PrimFloat.eqb f 0%float)
  | VStr s => negb (String.eqb s "")
  | VList l => match l with [] => false | _ => true end
  | VDict d => negb (Nat.eqb (size d) 0)
  | VRef _ => true
  end.

(** [v != 0].  Numbers compare by value ([False] and [0.0] equal [0]);
    everything else differs from [0]. *)
Definition py_ne_zero (v : value) : bool :=
  match v with
  | VBool b => b
  | VInt z => negb (z =? 0)
  | VFloat f => negb (PrimFloat.eqb f 0%float)
  | _ => true
  end.

(** [v.get(key)]: only dicts have the method; a missing key gives None. *)
Definition py_get (v : value) (key : string) : result value :=
  match v with
  | VDict d => Ok (default VNone (d !! key))
  | _ => Raise AttributeError
  end.

(** [v[0]]. *)
Definition py_getitem0 (v : value) : result value :=
  match v with
  | VList (x :: _) => Ok x
  | VList [] => Raise IndexError
  | VStr (String c _) => Ok (VStr (String c ""))
  | VStr "" => Raise IndexError
  | VDict _ => Raise KeyError
  | _ => Raise TypeError
  end.

Fixpoint chars (s : string) : list value :=
  match s with
  | "" => []
  | String c s' => VStr (String c "") :: chars s'
  end.

(** The elements a [for] loop visits.  A dict yields its keys, in the order
    of [map_to_list] (Python 2 fixes none). *)
Definition py_iter (v : value) : result (list value) :=
  match v with
  | VList l => Ok l
  | VStr s => Ok (chars s)
  | VDict d => Ok ((fun kv => VStr kv.1) <$> map_to_list d)
  | _ => Raise TypeError
  end.

(** [int(s)] for a string: optional blanks, an optional sign, decimal digits. *)
Definition is_space (c : ascii) : bool :=
  let n := nat_of_ascii c in
  (Nat.eqb n 32 || (Nat.leb 9 n && Nat.leb n 13))%bool.

Definition digit_of (c : ascii) : option Z :=
  let n := nat_of_ascii c in
  if (Nat.leb 48 n && Nat.leb n 57)%bool then Some (Z.of_nat n - 48) else None.

Fixpoint lstrip (s : string) : string :=
  match s with
  | String c s' => if is_space c then lstrip s' else s
  | "" => ""
  end.

(** Digits up to trailing blanks; [acc] is the number read so far and [any]
    says whether a digit was read. *)
Fixpoint digits (s : string) (acc : Z) (any : bool) : option Z :=
  match s with
  | "" => if any then Some acc else None
  | String c s' =>
      match digit_of c with
      | Some d => digits s' (10 * acc + d) true
      | None => if (any && String.eqb (lstrip s) "")%bool then Some acc else None
      end
  end.

Definition int_of_string (s : string) : result Z :=
  let r :=
    match lstrip s with
    | String "-" s' => Z.opp <$> digits s' 0 false
    | String "+" s' => digits s' 0 false
    | s' => digits s' 0 false
    end in
  match r with
  | Some z => Ok z
  | None => Raise ValueError
  end.

(** [int(f)] for a float: truncation towards zero. *)
Definition int_of_float (f : float) : result Z :=
  match Prim2SF f with
  | S754_zero _ => Ok 0
  | S754_infinity _ => Raise OverflowError
  | S754_nan => Raise ValueError
  | S754_finite sign m e =>
      let a := if 0 <=? e then Z.shiftl (Z.pos m) e else Z.shiftr (Z.pos m) (- e) in
      Ok (if sign then - a else a)
  end.

(** [int(v)]. *)
Definition py_int (v : value) : result Z :=
  match v with
  | VInt z => Ok z
  | VBool b => Ok (if b then 1 else 0)
  | VFloat f => int_of_float f
  | VStr s => int_of_string s
  | _ => Raise TypeError
  end.

(** [sep.join(parts)] on strings. *)
Fixpoint join (sep : string) (parts : list string) : string :=
  match parts with
  | [] => ""
  | [p] => p
  | p :: rest => p ++ sep ++ join sep rest
  end.

(** [sep.join([prefix, v])]: every item has to be a string. *)
Definition join_with (sep prefix : string) (v : value) : result string :=
  match v with
  | VStr s => Ok (join sep [prefix; s])
  | _ => Raise TypeError
  end.

(** ** Instances, attributes and the outside world *)

(** The attribute [name] of the instance at [l], if it has one. *)
Definition attr (w : world) (l : nat) (name : string) : option value :=
  o ← heap w !! l; obj_dict o !! name.

(** The uuid of the camera at [self] and the cookie of the account its
    [dropcam] attribute refers to, when there are such. *)
Definition camera_session (w : world) (self : nat) : option (value * value) :=
  uuid ← attr w self "uuid";
  d ← attr w self "dropcam";
  match d with
  | VRef a => cookie ← attr w a "cookie"; Some (uuid, cookie)
  | _ => None
  end.

Section Program.
Context `{RT : Runtime}.

(** [str(v)], as the [%s] conversion applies it. *)
Definition py_str (v : value) : string :=
  match v with
  | VNone => "None"
  | VBool true => "True"
  | VBool false => "False"
  | VInt z => pretty z
  | VStr s => s
  | _ => py_repr v
  end.

(** [d.update(v)] on an attribute dictionary.  A mapping overrides the keys
    it has; an empty string adds nothing and any other string fails on its
    first character; a list goes through the sequence-of-pairs protocol;
    nothing else is iterable. *)
Definition dict_update (d : gmap string value) (v : value) : result (gmap string value) :=
  match v with
  | VDict params => Ok (params ∪ d)
  | VList l => update_from_sequence l d
  | VStr "" => Ok d
  | VStr _ => Raise ValueError
  | _ => Raise TypeError
  end.

(** Attribute access [v.name].  Instances answer from their [__dict__]; the
    attributes this program reads ([uuid], [dropcam], [cookie] and the
    name-mangled credentials) are defined by no class and by no built-in
    type, so everything else raises. *)
Definition getattr (v : value) (name : string) : M value :=
  fun w =>
    match v with
    | VRef l =>
        match heap w !! l with
        | Some o =>
            match obj_dict o !! name with
            | Some a => (Ok a, w)
            | None => (Raise AttributeError, w)
            end
        | None => (Raise AttributeError, w)
        end
    | _ => (Raise AttributeError, w)
    end.

(** A call [self.name(...)] of a method that the class of the instance at
    [self] defines.  The instance dictionary is searched before the class.
    A camera's dictionary is filled from the listing, so it can hold any
    key; what is found there is data, no instance of this module can be
    called either, and calling what cannot be called is a TypeError.  The
    arguments of the calls below are local names, evaluated without effect. *)
Definition call_method {A : Type} (self : nat) (name : string) (method : M A) : M A :=
  fun w =>
    match attr w self name with
    | Some _ => (Raise TypeError, w)
    | None => method w
    end.

(** Attribute assignment [self.name = v] on an instance. *)
Definition setattr (l : nat) (name : string) (v : value) : M unit :=
  fun w =>
    match heap w !! l with
    | Some o =>
        (Ok tt, set_heap (<[l := Obj (obj_class o) (<[name := v]> (obj_dict o))]> (heap w)) w)
    | None => (Raise AttributeError, w)
    end.

(** A new instance gets an address no instance has. *)
Definition alloc (o : object) : M nat :=
  fun w =>
    let l := fresh (dom (heap w)) in
    (Ok l, set_heap (<[l := o]> (heap w)) w).

(** The call into the HTTP library: recorded, then answered by the runtime. *)
Definition http_request (c : http_call) : M response :=
  fun w => (http (sent w) c, set_sent (sent w ++ [c]) w).

(** [int(time.time())]. *)
Definition now : M Z := fun w => (Ok (clock w), w).

(** A name that is neither local nor built in is looked up among the module's
    globals when the statement runs. *)
Definition load_global (name : string) : M value :=
  fun w =>
    match globals w !! name with
    | Some v => (Ok v, w)
    | None => (Raise (NameError name), w)
    end.

(** A file object that is not open yet. *)
Definition new_file (w : world) : nat := fresh (dom (open_files w)).

(** [open(path, "wb")]: creates the file or cuts it to length zero, and
    returns a new file object. *)
Definition open_wb (path : string) : M nat :=
  fun w =>
    if writable path then
      let f := new_file w in
      (Ok f, set_files (<[path := ""]> (files w)) (<[f := path]> (open_files w)) w)
    else (Raise IOError, w).

(** [f.write(data)]: appends to the file the object writes to. *)
Definition file_write (f : nat) (data : string) : M unit :=
  fun w =>
    match open_files w !! f with
    | Some path =>
        (Ok tt, set_files (<[path := default "" (files w !! path) ++ data]> (files w))
                          (open_files w) w)
    | None => (Raise ValueError, w)
    end.

(** [f.close()]. *)
Definition file_close (f : nat) : M unit :=
  fun w => (Ok tt, set_files (files w) (delete f (open_files w)) w).

(** ** The module *)

(** *** Class constants of [Dropcam] *)

Definition NEXUS_BASE : string := "https://nexusapi.dropcam.com".
Definition API_BASE : string := "https://www.dropcam.com".
Definition API_PATH : string := "api".
Definition LOGIN_PATH : string := join "/" [API_BASE; API_PATH; "login.login"].
Definition CAMERAS_GET : string := join "/" [API_BASE; API_PATH; "cameras.get"].
Definition CAMERAS_UPDATE : string := join "/" [API_BASE; API_PATH; "cameras.update"].
Definition CAMERAS_GET_VISIBLE : string := join "/" [API_BASE; API_PATH; "cameras.get_visible"].
Definition CAMERAS_GET_IMAGE_PATH : string := join "/" [NEXUS_BASE; "get_image"].
Definition EVENT_PATH : string := join "/" [NEXUS_BASE; "get_cuepoint"].
Definition EVENT_GET_CLIP_PATH : string := join "/" [NEXUS_BASE; "get_event_clip"].
Definition PROPERTIES_PATH : string := join "/" [API_BASE; "app/cameras/properties"].

(** The data the module binds at top level.  Its other globals are modules,
    classes, the logger and [request]; no global is called [items]. *)
Definition module_globals : gmap string value :=
  {[ "__doc__" := VStr "
Unofficial Dropcam Python API.
";
     "__author__" := VStr "Ryan Galloway <ryan@rsgalloway.com>";
     "__version__" := VStr "0.4.0" ]}.

(** *** [request] *)

(** The table [{"GET": requests.get, "POST": requests.post}]. *)
Definition http_methods : gmap string string :=
  {[ "GET" := "GET"; "POST" := "POST" ]}.

(** The [headers] dictionary [request] builds.  [str(params)] is the
    interpreter's: for None, booleans, numbers and strings among the
    parameters no method of an instance runs.  [set_property] passes its
    arguments on as they are, and the statements about the request it makes
    are for arguments of these kinds. *)
Definition request_headers (params : gmap string value) (cookie : value)
    : gmap string value :=
  {[ "Cookie" := cookie;
     "Referer" := VStr API_BASE;
     "Content-Type" := VStr "application/json";
     "Content-Length" := VInt (Z.of_nat (String.length (py_str (VDict params)))) ]}.

(** The library call [request] makes: [params=] and [headers=] are passed,
    [data=] is not. *)
Definition request_call (url : string) (params : gmap string value)
    (cookie : value) (m : string) : http_call :=
  {| rq_method := m; rq_url := url; rq_params := params; rq_data := None;
     rq_headers := request_headers params cookie |}.

(** [request(url, params, cookie=None, method="GET")].  The headers are built
    first; looking up an unknown method gives None, and calling None is a
    TypeError. *)
Definition request (url : string) (params : gmap string value)
    (cookie : value) (method : string) : M response :=
  match http_methods !! method with
  | None => raise TypeError
  | Some m =>
      resp <- http_request (request_call url params cookie m) ;;
      if ok resp then ret resp
      else raise (Exception [VStr (reason resp)])
  end.

(** *** Constructors of [Camera] and [Event] *)

(** [Camera(dropcam, params)]: the back-reference is stored first, then the
    vendor's attributes are merged over the instance dictionary (an attribute
    called [dropcam] among them replaces the back-reference).  The instance
    enters the heap when its constructor returns. *)
Definition new_Camera (dropcam : value) (params : value) : M value :=
  d <- lift (dict_update {[ "dropcam" := dropcam ]} params) ;;
  l <- alloc (Obj ClsCamera d) ;;
  ret (VRef l).

(** [Event(camera, params)], in the same way. *)
Definition new_Event (camera : value) (params : value) : M value :=
  d <- lift (dict_update {[ "camera" := camera ]} params) ;;
  l <- alloc (Obj ClsEvent d) ;;
  ret (VRef l).

(** *** [Dropcam] *)

(** [response.get("items")[0].get("session_token")]. *)
Definition session_token (response : value) : result value :=
  match py_get response "items" with
  | Ok items =>
      match py_getitem0 items with
      | Ok first => py_get first "session_token"
      | Raise e => Raise e
      end
  | Raise e => Raise e
  end.

(** The library call behind [login]. *)
Definition login_call (username password : value) : http_call :=
  request_call LOGIN_PATH {[ "username" := username; "password" := password ]}
    VNone "POST".

(** [Dropcam.login].  [self.__username] is stored under its mangled name. *)
Definition login (self : nat) : M unit :=
  username <- getattr (VRef self) "_Dropcam__username" ;;
  password <- getattr (VRef self) "_Dropcam__password" ;;
  let params : gmap string value :=
    {[ "username" := username; "password" := password ]} in
  resp <- request LOGIN_PATH params VNone "POST" ;;
  response <- lift (json_loads (content resp)) ;;
  token <- lift (session_token response) ;;
  setattr self "cookie" (VStr ("website_2=" ++ py_str token)).

(** [Dropcam(username, password)]. *)
Definition new_Dropcam (username password : value) : M nat :=
  self <- alloc (Obj ClsDropcam
                   {[ "_Dropcam__username" := username;
                      "_Dropcam__password" := password;
                      "cookie" := VNone ]}) ;;
  login self ;;;
  ret self.

(** The inner loop of [cameras]: [for params in item.get('owned')]. *)
Fixpoint cameras_owned (self : nat) (owned : list value) (acc : list value)
    : M (list value) :=
  match owned with
  | [] => ret acc
  | params :: rest =>
      c <- new_Camera (VRef self) params ;;
      cameras_owned self rest (acc ++ [c])
  end.

(** The outer loop: [for item in items]. *)
Fixpoint cameras_items (self : nat) (items : list value) (acc : list value)
    : M (list value) :=
  match items with
  | [] => ret acc
  | item :: rest =>
      owned <- lift (py_get item "owned") ;;
      ps <- lift (py_iter owned) ;;
      acc' <- cameras_owned self ps acc ;;
      cameras_items self rest acc'
  end.

(** The library call behind [cameras]. *)
Definition cameras_call (cookie : value) : http_call :=
  request_call CAMERAS_GET_VISIBLE {[ "group_cameras" := VBool true ]} cookie "GET".

(** [Dropcam.cameras].  The request uses the default method, GET. *)
Definition cameras (self : nat) : M (list value) :=
  let params : gmap string value := {[ "group_cameras" := VBool true ]} in
  cookie <- getattr (VRef self) "cookie" ;;
  resp <- request CAMERAS_GET_VISIBLE params cookie "GET" ;;
  response <- lift (json_loads (content resp)) ;;
  status <- lift (py_get response "status") ;;
  if py_ne_zero status then
    detail <- lift (py_get response "status_detail") ;;
    raise (Exception [status; detail])
  else
    items <- lift (py_get response "items") ;;
    its <- lift (py_iter items) ;;
    cameras_items self its [].

(** *** [Camera] *)

(** [self.dropcam.cookie]. *)
Definition account_cookie (self : nat) : M value :=
  dropcam <- getattr (VRef self) "dropcam" ;;
  getattr dropcam "cookie".

(** The library call behind [set_property], for a camera with uuid [u]. *)
Definition property_call (u : string) (name value_ cookie : value) : http_call :=
  request_call (join "/" [PROPERTIES_PATH; u])
    {[ "camera_uuid" := VStr u; "name" := name; "value" := value_ ]} cookie "POST".

(** [Camera.set_property]. *)
Definition set_property (self : nat) (name value_ : value) : M unit :=
  uuid <- getattr (VRef self) "uuid" ;;
  url <- lift (join_with "/" PROPERTIES_PATH uuid) ;;
  uuid' <- getattr (VRef self) "uuid" ;;
  let data : gmap string value :=
    {[ "camera_uuid" := uuid'; "name" := name; "value" := value_ ]} in
  cookie <- account_cookie self ;;
  request url data cookie "POST" ;;;
  ret tt.

(** The loop of [events]: [for item in items]. *)
Fixpoint events_items (self : nat) (items : list value) (acc : list value)
    : M (list value) :=
  match items with
  | [] => ret acc
  | item :: rest =>
      e <- new_Event (VRef self) item ;;
      events_items self rest (acc ++ [e])
  end.

(** The [end] the query uses: the clock when the argument is None. *)
Definition end_time (w : world) (end_ : value) : value :=
  match end_ with
  | VNone => VInt (clock w)
  | _ => end_
  end.

(** The library call behind [events]. *)
Definition events_call (uuid : value) (start : Z) (end_ cookie : value) : http_call :=
  request_call EVENT_PATH
    {[ "uuid" := uuid; "start_time" := VInt start; "end_time" := end_ ]} cookie "GET".

(** [Camera.events(start, end=None)].  The function never assigns [items],
    so the loop reads a global of that name. *)
Definition events (self : nat) (start end_ : value) : M (list value) :=
  start' <- lift (py_int start) ;;
  end' <- match end_ with
          | VNone => t <- now ;; ret (VInt t)
          | _ => ret end_
          end ;;
  uuid <- getattr (VRef self) "uuid" ;;
  let params : gmap string value :=
    {[ "uuid" := uuid; "start_time" := VInt start'; "end_time" := end' ]} in
  cookie <- account_cookie self ;;
  resp <- request EVENT_PATH params cookie "GET" ;;
  response <- lift (json_loads (content resp)) ;;
  items <- load_global "items" ;;
  its <- lift (py_iter items) ;;
  events_items self its [].

(** [int(response.headers.get('content-length', 0))]. *)
Definition content_length (resp : response) : result Z :=
  match headers resp !! "content-length" with
  | Some s => int_of_string s
  | None => Ok 0
  end.

(** The parameters of the image request. *)
Definition image_params (uuid width seconds : value) : gmap string value :=
  let params : gmap string value := {[ "uuid" := uuid; "width" := width ]} in
  if py_truthy seconds then <[ "time" := seconds ]> params else params.

(** The error [get_image] raises itself. *)
Definition unavailable : exn :=
  ConnectionError [VStr "Camera image is not available or camera is turned off"].

(** The library call behind [get_image], for a camera with this uuid and
    account cookie. *)
Definition image_call (uuid width seconds cookie : value) : http_call :=
  request_call CAMERAS_GET_IMAGE_PATH (image_params uuid width seconds) cookie "GET".

(** [Camera.get_image(width=720, seconds=None)].  The header is parsed only
    when the status is 200. *)
Definition get_image (self : nat) (width seconds : value) : M response :=
  uuid <- getattr (VRef self) "uuid" ;;
  let params := image_params uuid width seconds in
  cookie <- account_cookie self ;;
  resp <- request CAMERAS_GET_IMAGE_PATH params cookie "GET" ;;
  if negb (status_code resp =? 200) then raise unavailable
  else
    n <- lift (content_length resp) ;;
    if n =? 0 then raise unavailable else ret resp.

(** [Camera.save_image(path, width=720, seconds=None)]: the file is opened
    before [self.get_image] is looked up and called. *)
Definition save_image (self : nat) (path : string) (width seconds : value)
    : M unit :=
  f <- open_wb path ;;
  resp <- call_method self "get_image" (get_image self width seconds) ;;
  file_write f (content resp) ;;;
  file_close f.

(** The defaults of the optional arguments. *)
Definition default_width : value := VInt 720.
Definition default_seconds : value := VNone.

End Program.

(** ** The script *)

(** Standard output as the [print] statement sees it: what has been written,
    and the flag that makes the next item start with a space. *)
Record console := {
  printed : string;
  softspace : bool
}.

Fixpoint last_char (s : string) : option ascii :=
  match s with
  | "" => None
  | String c "" => Some c
  | String _ s' => last_char s'
  end.

Definition newline : string := String "010" "".

(** One item of a [print] statement: a space first when the flag is set, then
    the text.  The flag is set again unless the item is a string that ends in
    a blank other than a space. *)
Definition print_item (is_string : bool) (text : string) (c : console) : console :=
  {| printed := printed c ++ (if softspace c then " " else "") ++ text;
     softspace :=
       if is_string then
         match last_char text with
         | None => true
         | Some ch => (negb (is_space ch) || Ascii.eqb ch " ")%bool
         end
       else true |}.

(** The end of a [print] statement without a trailing comma. *)
Definition print_newline (c : console) : console :=
  {| printed := printed c ++ newline; softspace := false |}.

(** ["dropcam.%d.%d.jpg" % (i, s)]. *)
Definition snapshot_name (i s : Z) : string :=
  "dropcam." ++ pretty i ++ "." ++ pretty s ++ ".jpg".

(** [60 * 60 * 24 * 7]. *)
Definition week : Z := 60 * 60 * 24 * 7.

Section Script.
Context `{RT : Runtime}.
(* str() of an exception, as the interpreter gives it *)
Variable exn_str : exn -> string.

(** [cam.save_image(path)], with the defaults for width and seconds: the
    name is looked up on the camera, in its dictionary first. *)
Definition call_save_image (cam : value) (path : string) : M unit :=
  match cam with
  | VRef l => call_method l "save_image" (save_image l path default_width default_seconds)
  | _ => raise AttributeError
  end.

(** The body of the [for] loop, for the cameras from index [i] on.  The
    items of a [print] statement are written one by one as they are
    evaluated.  [s] is [int(time.time() - week)], which is the clock less a
    week for every clock past the first week of 1970. *)
Fixpoint main_loop (i : Z) (cams : list value) (c : console) (w : world)
    : result unit * console * world :=
  match cams with
  | [] => (Ok tt, c, w)
  | cam :: rest =>
      let c1 := print_item false (pretty i) c in
      match getattr cam "title" w with
      | (Raise e, w1) => (Raise e, c1, w1)
      | (Ok title, w1) =>
          let c2 := print_item true (py_repr title) c1 in
          match getattr cam "is_online" w1 with
          | (Raise e, w2) => (Raise e, c2, w2)
          | (Ok online, w2) =>
              if negb (py_truthy online) then
                main_loop (i + 1) rest
                  (print_newline (print_item true "offline, skipping" c2)) w2
              else
                match now w2 with
                | (Raise e, w3) => (Raise e, c2, w3)
                | (Ok t, w3) =>
                    let s := t - week in
                    let c3 :=
                      print_newline
                        (print_item false (pretty s)
                           (print_item true "saving image at time" c2)) in
                    match call_save_image cam (snapshot_name i s) w3 with
                    | (Raise e, w4) => (Raise e, c3, w4)
                    | (Ok _, w4) => main_loop (i + 1) rest c3 w4
                    end
                end
          end
      end
  end.

(** The script run as a program, with the two environment variables as
    arguments (None when unset).  The account is constructed outside the
    [try]; every exception raised by the listing or inside the loop is caught
    and printed. *)
Definition main (username password : value) (c : console) (w : world)
    : result unit * console * world :=
  match new_Dropcam username password w with
  | (Raise e, w1) => (Raise e, c, w1)
  | (Ok d, w1) =>
      match cameras d w1 with
      | (Raise e, w2) => (Ok tt, print_newline (print_item false (exn_str e) c), w2)
      | (Ok cams, w2) =>
          match main_loop 0 cams c w2 with
          | (Raise e, c', w3) =>
              (Ok tt, print_newline (print_item false (exn_str e) c'), w3)
          | done => done
          end
      end
  end.

End Script.

(** ** Vocabulary of the statements *)

(** [m] never changes the heap, whether it returns or raises. *)
Definition heap_stable {A} (m : M A) : Prop :=
  forall w, heap (m w).2 = heap w.

(** [m] neither reads nor writes the file system: run on a world with other
    files, it gives the same result and leaves those files in place. *)
Definition files_blind {A} (m : M A) : Prop :=
  forall fs op w, m (set_files fs op w) = ((m w).1, set_files fs op (m w).2).

(** [m] only adds instances: every instance there was before is there
    afterwards, with the same class and attributes. *)
Definition heap_grows {A} (m : M A) : Prop :=
  forall w, heap w ⊆ heap (m w).2.

(** [m] leaves the files and the open file objects as they were. *)
Definition files_stable {A} (m : M A) : Prop :=
  forall w, files (m w).2 = files w /\ open_files (m w).2 = open_files w.

(** [m] makes at most [n] calls to the HTTP library, whatever it is run on
    and however it ends. *)
Definition sends {A} (n : nat) (m : M A) : Prop :=
  forall w, exists cs, sent (m w).2 = (sent w ++ cs)%list /\ (length cs <= n)%nat.

(** Between [w] and [w'] the instances at [ls] were created, all of them
    cameras: their addresses were free in [w] and are pairwise distinct, and
    every instance of [w] is unchanged in [w']. *)
Definition cameras_created (w w' : world) (ls : list nat) : Prop :=
  Forall (fun l => heap w !! l = None /\
                   exists d, heap w' !! l = Some (Obj ClsCamera d)) ls /\
  NoDup ls /\
  heap w ⊆ heap w'.

(** None, a boolean, a number or a string: the values whose [str()] and
    [repr()] are the interpreter's own and run no method of an instance. *)
Definition plain (v : value) : bool :=
  match v with
  | VNone | VBool _ | VInt _ | VFloat _ | VStr _ => true
  | VList _ | VDict _ | VRef _ => false
  end.

(** [cam] is an instance with a title whose [is_online] is false in a
    condition. *)
Definition is_offline (w : world) (cam : value) : bool :=
  match cam with
  | VRef l =>
      match attr w l "title", attr w l "is_online" with
      | Some _, Some online => negb (py_truthy online)
      | _, _ => false
      end
  | _ => false
  end.

(** The world after [login] stored [cookie] on the account [o] at [self]. *)
Definition logged_in (self : nat) (o : object) (cookie : string) (w : world) : world :=
  set_heap (<[self := Obj (obj_class o) (<["cookie" := VStr cookie]> (obj_dict o))]> (heap w)) w.

(** The instance [Camera(self, attrs)] builds from a vendor object. *)
Definition camera_object (self : nat) (attrs : gmap string value) : object :=
  Obj ClsCamera (attrs ∪ {[ "dropcam" := VRef self ]}).

(** A group of the listing: an object whose [owned] entry is a list of
    camera objects; [g.1] holds its other entries. *)
Definition group_value (g : gmap string value * list (gmap string value)) : value :=
  VDict (<[ "owned" := VList (VDict <$> g.2) ]> g.1).

(** Going from [w] to [w'], the instances at [ls] were created, one camera
    for each of [es] in this order, at addresses that were free and are
    pairwise distinct; nothing else happened. *)
Definition cameras_made (self : nat) (w w' : world)
    (ls : list nat) (es : list (gmap string value)) : Prop :=
  Forall2 (fun l attrs => heap w' !! l = Some (camera_object self attrs)) ls es /\
  heap w ⊆ heap w' /\
  Forall (fun l => heap w !! l = None) ls /\
  NoDup ls /\
  sent w' = sent w /\ files w' = files w.

(** ** Sample runtimes and worlds *)

(** A vendor that answers every call with [reply] behind a decoder that
    reads every body as [decoded]. *)
Definition scripted (reply : result response) (decoded : result value) : Runtime :=
  {| http := fun _ _ => reply;
     json_loads := fun _ => decoded;
     py_repr := fun _ => "<repr>";
     update_from_sequence := fun _ _ => Raise ValueError;
     writable := fun _ => true |}.

Definition reply (code : Z) (accepted : bool) (phrase : string)
    (hdrs : gmap string string) (body : string) : response :=
  {| status_code := code; ok := accepted; reason := phrase;
     headers := hdrs; content := body |}.

(** An account at address 0 that has logged in and one of its cameras at
    address 1; a file left by an earlier snapshot. *)
Definition sample_account : object :=
  Obj ClsDropcam
    {[ "_Dropcam__username" := VStr "ann@example.org";
       "_Dropcam__password" := VStr "hunter2";
       "cookie" := VStr "website_2=s3ss10n" ]}.

Definition sample_camera : object :=
  Obj ClsCamera
    {[ "dropcam" := VRef 0;
       "uuid" := VStr "c4m3r4";
       "title" := VStr "Porch";
       "is_online" := VBool true ]}.

Definition sample_world : world :=
  {| heap := {[ 0%nat := sample_account; 1%nat := sample_camera ]};
     sent := [];
     files := {[ "porch.jpg" := "yesterday" ]};
     open_files := ∅;
     globals := module_globals;
     clock := 1446336000 |}.

(** The sample account as its constructor leaves it before [login] runs. *)
Definition signed_out_world : world :=
  set_heap
    {[ 0%nat := Obj ClsDropcam
                  {[ "_Dropcam__username" := VStr "ann@example.org";
                     "_Dropcam__password" := VStr "hunter2";
                     "cookie" := VNone ]} ]}
    sample_world.

(** The sample account with two cameras whose listing entries were odd: the
    one at address 2 came without a uuid, the one at address 3 with a number
    for a uuid. *)
Definition odd_world : world :=
  set_heap
    {[ 0%nat := sample_account;
       2%nat := Obj ClsCamera {[ "dropcam" := VRef 0; "title" := VStr "Attic" ]};
       3%nat := Obj ClsCamera {[ "dropcam" := VRef 0; "uuid" := VInt 42 ]} ]}
    sample_world.

(** The sample account with a camera at address 4 whose listing entry had
    an attribute called [get_image], and one at address 5 whose entry had an
    attribute called [save_image]. *)
Definition shadowed_world : world :=
  set_heap
    {[ 0%nat := sample_account;
       4%nat := Obj ClsCamera
                  {[ "dropcam" := VRef 0; "uuid" := VStr "c4m3r4";
                     "title" := VStr "Porch"; "is_online" := VBool true;
                     "get_image" := VInt 5 ]};
       5%nat := Obj ClsCamera
                  {[ "dropcam" := VRef 0; "uuid" := VStr "b4ckd00r";
                     "title" := VStr "Yard"; "is_online" := VBool true;
                     "save_image" := VStr "never" ]} ]}
    sample_world.

(** What the sample runs print for an exception. *)
Definition sample_exn_str (e : exn) : string :=
  match e with
  | ConnectionError [VStr s] => s
  | Exception [VStr s] => s
  | _ => "<error>"
  end.

(** A console on which nothing has been printed. *)
Definition blank_console : console := {| printed := ""; softspace := false |}.

(** A world in which nothing has been constructed yet. *)
Definition empty_world : world := set_heap ∅ sample_world.

(** A vendor whose every answer decodes to the same body: a session token
    for the login and, for the listing, one camera that is switched off. *)
Definition offline_listing : gmap string value :=
  {[ "status" := VInt 0;
     "items" := VList [VDict {[ "session_token" := VStr "t0k3n";
        "owned" := VList [VDict {[ "uuid" := VStr "c4m3r4"; "title" := VStr "Porch";
                                   "is_online" := VBool false ]}] ]}] ]}.

Definition offline_vendor : Runtime :=
  scripted (Ok (reply 200 true "OK" ∅ "{..}")) (Ok (VDict offline_listing)).



(** A listing entry that happens to have an attribute called [dropcam]. *)
Definition branded_entry : gmap string value :=
  {[ "uuid" := VStr "c4m3r4"; "dropcam" := VStr "pro" ]}.

(** A listing with two groups; the second camera is owned in both. *)
Definition sample_groups : list (gmap string value * list (gmap string value)) :=
  [ ({[ "name" := VStr "home" ]},
     [ {[ "uuid" := VStr "c4m3r4"; "title" := VStr "Porch"; "is_online" := VBool true ]};
       {[ "uuid" := VStr "b4ckd00r"; "title" := VStr "Yard"; "is_online" := VBool false ]} ]);
    ({[ "name" := VStr "shared" ]},
     [ {[ "uuid" := VStr "b4ckd00r"; "title" := VStr "Yard"; "is_online" := VBool false ]} ]) ].

Definition sample_listing : gmap string value :=
  {[ "status" := VInt 0; "items" := VList (group_value <$> sample_groups) ]}.

Definition refused_listing : gmap string value :=
  {[ "status" := VInt 401; "status_detail" := VStr "session expired" ]}.

(** * Properties *)

(** ** The built-ins on sample values *)

Example int_of_string_samples :
  int_of_string "1024" = Ok 1024 /\ int_of_string " 12 " = Ok 12 /\
  int_of_string "-5" = Ok (-5) /\ int_of_string "+0" = Ok 0 /\
  int_of_string "" = Raise ValueError /\ int_of_string "1 2" = Raise ValueError /\
  int_of_string "12a" = Raise ValueError /\ int_of_string "- 5" = Raise ValueError.
Proof. repeat split. Qed.

Example int_of_float_samples :
  int_of_float 2.5%float = Ok 2 /\ int_of_float (-2.5)%float = Ok (-2) /\
  int_of_float 0.25%float = Ok 0 /\ int_of_float infinity = Raise OverflowError /\
  int_of_float nan = Raise ValueError.
Proof. repeat split. Qed.

Example py_ne_zero_samples :
  py_ne_zero (VInt 0) = false /\ py_ne_zero (VBool false) = false /\
  py_ne_zero (VFloat (-0)%float) = false /\ py_ne_zero (VInt 7) = true /\
  py_ne_zero VNone = true /\ py_ne_zero (VStr "0") = true.
Proof. repeat split. Qed.

Example py_truthy_samples :
  py_truthy (VInt 0) = false /\ py_truthy VNone = false /\
  py_truthy (VFloat 0%float) = false /\ py_truthy (VStr "") = false /\
  py_truthy (VInt 1445731200) = true /\ py_truthy (VStr "0") = true.
Proof. repeat split. Qed.

Example paths :
  LOGIN_PATH = "https://www.dropcam.com/api/login.login" /\
  CAMERAS_GET_VISIBLE = "https://www.dropcam.com/api/cameras.get_visible" /\
  CAMERAS_GET_IMAGE_PATH = "https://nexusapi.dropcam.com/get_image" /\
  EVENT_PATH = "https://nexusapi.dropcam.com/get_cuepoint" /\
  PROPERTIES_PATH = "https://www.dropcam.com/app/cameras/properties".
Proof. repeat split. Qed.

(** ** Stepping through a computation *)

Lemma bind_ok {A B} (m : M A) (k : A -> M B) w a w' :
  m w = (Ok a, w') -> bind m k w = k a w'.
Proof. intros E. unfold bind. now rewrite E. Qed.

Lemma bind_raise {A B} (m : M A) (k : A -> M B) w e w' :
  m w = (Raise e, w') -> bind m k w = (Raise e, w').
Proof. intros E. unfold bind. now rewrite E. Qed.

Lemma bind_lift_ok {A B} (r : result A) (k : A -> M B) w a :
  r = Ok a -> bind (lift r) k w = k a w.
Proof. intros ->. reflexivity. Qed.

Lemma bind_lift_raise {A B} (r : result A) (k : A -> M B) w e :
  r = Raise e -> bind (lift r) k w = (Raise e, w).
Proof. intros ->. reflexivity. Qed.

(** A record is its fields. *)
Lemma set_files_same w : set_files (files w) (open_files w) w = w.
Proof. now destruct w. Qed.

(** ** Frames: what a computation leaves alone *)

Lemma heap_stable_bind {A B} (m : M A) (k : A -> M B) :
  heap_stable m -> (forall a, heap_stable (k a)) -> heap_stable (bind m k).
Proof.
  intros Hm Hk w. unfold bind. specialize (Hm w).
  destruct (m w) as [[a|e] w1]; simpl in *.
  - now rewrite Hk.
  - exact Hm.
Qed.

Lemma files_blind_bind {A B} (m : M A) (k : A -> M B) :
  files_blind m -> (forall a, files_blind (k a)) -> files_blind (bind m k).
Proof.
  intros Hm Hk fs op w. unfold bind. rewrite Hm.
  destruct (m w) as [[a|e] w1]; simpl.
  - apply Hk.
  - reflexivity.
Qed.

Lemma files_blind_same {A} (m : M A) w :
  files_blind m ->
  files (m w).2 = files w /\ open_files (m w).2 = open_files w.
Proof.
  intros Hm. specialize (Hm (files w) (open_files w) w).
  rewrite set_files_same in Hm. rewrite Hm. simpl. auto.
Qed.

Section Frames.
Context `{RT : Runtime}.

Lemma heap_stable_ret {A} (a : A) : heap_stable (ret a).
Proof. now intros w. Qed.

Lemma heap_stable_raise {A} e : heap_stable (@raise A e).
Proof. now intros w. Qed.

Lemma heap_stable_lift {A} (r : result A) : heap_stable (lift r).
Proof. now intros w. Qed.

Lemma heap_stable_getattr v name : heap_stable (getattr v name).
Proof.
  intros w. unfold getattr. destruct v; try reflexivity.
  destruct (heap w !! l) as [o|]; [|reflexivity].
  now destruct (obj_dict o !! name).
Qed.

Lemma heap_stable_http c : heap_stable (http_request c).
Proof. now intros w. Qed.

Lemma files_blind_ret {A} (a : A) : files_blind (ret a).
Proof. now intros fs op w. Qed.

Lemma files_blind_raise {A} e : files_blind (@raise A e).
Proof. now intros fs op w. Qed.

Lemma files_blind_lift {A} (r : result A) : files_blind (lift r).
Proof. now intros fs op w. Qed.

Lemma files_blind_getattr v name : files_blind (getattr v name).
Proof.
  intros fs op w. unfold getattr. destruct v; try reflexivity. simpl.
  destruct (heap w !! l) as [o|]; [|reflexivity].
  now destruct (obj_dict o !! name).
Qed.

Lemma files_blind_http c : files_blind (http_request c).
Proof. now intros fs op w. Qed.

Create HintDb frames discriminated.

#[local] Hint Resolve heap_stable_ret heap_stable_raise heap_stable_lift
  heap_stable_getattr heap_stable_http
  files_blind_ret files_blind_raise files_blind_lift
  files_blind_getattr files_blind_http : frames.

(** Frames of a sequence follow from the frames of its steps; a branch on a
    value is settled by cases. *)
Ltac frame :=
  repeat
    match goal with
    | |- heap_stable (bind _ _) => apply heap_stable_bind; [|intro]
    | |- files_blind (bind _ _) => apply files_blind_bind; [|intro]
    | |- heap_stable (if ?b then _ else _) => destruct b
    | |- files_blind (if ?b then _ else _) => destruct b
    | |- heap_stable (match ?o with Some _ => _ | None => _ end) => destruct o
    | |- files_blind (match ?o with Some _ => _ | None => _ end) => destruct o
    | |- _ => solve [eauto with frames]
    end.

Lemma heap_stable_request url params cookie method :
  heap_stable (request url params cookie method).
Proof. unfold request. frame. Qed.

Lemma files_blind_request url params cookie method :
  files_blind (request url params cookie method).
Proof. unfold request. frame. Qed.

Lemma heap_stable_account_cookie self : heap_stable (account_cookie self).
Proof. unfold account_cookie. frame. Qed.

Lemma files_blind_account_cookie self : files_blind (account_cookie self).
Proof. unfold account_cookie. frame. Qed.

#[local] Hint Resolve heap_stable_request files_blind_request
  heap_stable_account_cookie files_blind_account_cookie : frames.

Lemma files_blind_get_image self width seconds :
  files_blind (get_image self width seconds).
Proof. unfold get_image. frame. Qed.

(** C8.  [set_property] leaves every instance as it was: after the call,
    whether it returned or raised, the heap (and with it the camera's uuid,
    title, is_online, its other vendor attributes and its back-reference to
    the account) is the heap before the call. *)
Theorem set_property_heap_unchanged self name value_ w :
  heap (set_property self name value_ w).2 = heap w.
Proof.
  revert w. change (heap_stable (set_property self name value_)).
  unfold set_property. frame.
Qed.

End Frames.


(** ** The transport function *)

Section Transport.
Context `{RT : Runtime}.

Lemma http_methods_known method :
  method = "GET" \/ method = "POST" -> http_methods !! method = Some method.
Proof. intros [-> | ->]; reflexivity. Qed.

(** What [request] does with each outcome of the library call. *)
Lemma request_run url params cookie method w :
  method = "GET" \/ method = "POST" ->
  request url params cookie method w =
    (match http (sent w) (request_call url params cookie method) with
     | Ok r => if ok r then Ok r else Raise (Exception [VStr (reason r)])
     | Raise e => Raise e
     end,
     set_sent (sent w ++ [request_call url params cookie method]) w).
Proof.
  intros Hm. unfold request. rewrite (http_methods_known _ Hm).
  unfold bind, http_request.
  destruct (http (sent w) (request_call url params cookie method)) as [r|e];
    [|reflexivity].
  now destruct (ok r).
Qed.



End Transport.




(** ** Reading a camera's attributes *)

Section Attributes.
Context `{RT : Runtime}.

Lemma getattr_attr w l name v :
  attr w l name = Some v -> getattr (VRef l) name w = (Ok v, w).
Proof.
  unfold attr, getattr. destruct (heap w !! l) as [o|]; simpl; [|discriminate].
  now intros ->.
Qed.

Lemma camera_session_attrs w self uuid cookie :
  camera_session w self = Some (uuid, cookie) ->
  getattr (VRef self) "uuid" w = (Ok uuid, w) /\
  account_cookie self w = (Ok cookie, w).
Proof.
  unfold camera_session. intros E.
  destruct (attr w self "uuid") as [u|] eqn:Eu; simpl in E; [|discriminate].
  destruct (attr w self "dropcam") as [d|] eqn:Ed; simpl in E; [|discriminate].
  destruct d; try discriminate.
  destruct (attr w l "cookie") as [c|] eqn:Ec; simpl in E; [|discriminate].
  injection E as -> ->. split.
  - now apply getattr_attr.
  - unfold account_cookie. rewrite (bind_ok _ _ _ _ _ (getattr_attr _ _ _ _ Ed)).
    now apply getattr_attr.
Qed.

End Attributes.

(** ** Image retrieval *)

Section Images.
Context `{RT : Runtime}.

(** [get_image] on a camera whose attributes are in place: one call, and the
    result by cases on its outcome. *)
Lemma get_image_run self width seconds w uuid cookie :
  camera_session w self = Some (uuid, cookie) ->
  get_image self width seconds w =
    (match http (sent w) (image_call uuid width seconds cookie) with
     | Ok r =>
         if ok r then
           if status_code r =? 200 then
             match content_length r with
             | Ok n => if n =? 0 then Raise unavailable else Ok r
             | Raise e => Raise e
             end
           else Raise unavailable
         else Raise (Exception [VStr (reason r)])
     | Raise e => Raise e
     end,
     set_sent (sent w ++ [image_call uuid width seconds cookie]) w).
Proof.
  intros Hs. destruct (camera_session_attrs _ _ _ _ Hs) as [Hu Hc].
  unfold get_image.
  rewrite (bind_ok _ _ _ _ _ Hu), (bind_ok _ _ _ _ _ Hc).
  unfold bind at 1. rewrite request_run by auto. fold (image_call uuid width seconds cookie).
  destruct (http (sent w) (image_call uuid width seconds cookie)) as [r|e]; [|reflexivity].
  destruct (ok r); [|reflexivity].
  destruct (status_code r =? 200); simpl; [|reflexivity].
  unfold bind, lift. destruct (content_length r) as [n|e]; [|reflexivity].
  now destruct (n =? 0).
Qed.

(** C2, amended.  For a camera with a uuid and a logged-in account, and for
    every response the library returns to the image request.  When the
    library judges the response ok: [get_image] returns the response itself
    when its status code is 200 and its content-length header parses to a
    positive integer; it raises [ConnectionError] when the status code is 200
    and the header is absent or parses to 0; and it raises [ConnectionError]
    as well for every other status code.  When the library judges the
    response not ok (a 500, say), it surfaces as the generic [Exception]
    that [request] raises with the reason phrase, not as [ConnectionError].
    The source reads nothing but the flag [ok] to tell the two apart. *)
Theorem get_image_outcomes self width seconds w uuid cookie r :
  camera_session w self = Some (uuid, cookie) ->
  http (sent w) (image_call uuid width seconds cookie) = Ok r ->
  (ok r = true -> status_code r = 200 ->
     (exists n, content_length r = Ok n /\ 0 < n) ->
     (get_image self width seconds w).1 = Ok r) /\
  (ok r = true -> status_code r = 200 ->
     (headers r !! "content-length" = None \/ content_length r = Ok 0) ->
     (get_image self width seconds w).1 = Raise unavailable) /\
  (ok r = true -> status_code r <> 200 ->
     (get_image self width seconds w).1 = Raise unavailable) /\
  (ok r = false ->
     (get_image self width seconds w).1 = Raise (Exception [VStr (reason r)]) /\
     (get_image self width seconds w).1 <> Raise unavailable).
Proof.
  intros Hs Hr. rewrite (get_image_run _ _ _ _ _ _ Hs), Hr. simpl.
  split; [|split; [|split]].
  - intros Hok H200 (n & Hn & Hpos). rewrite Hok, H200, Hn. simpl.
    destruct (n =? 0) eqn:E; [lia | reflexivity].
  - intros Hok H200 Hempty. rewrite Hok, H200. simpl.
    destruct Hempty as [Hnone | ->]; [|reflexivity].
    unfold content_length. now rewrite Hnone.
  - intros Hok Hne. rewrite Hok.
    destruct (status_code r =? 200) eqn:E; [lia | reflexivity].
  - intros Hok. rewrite Hok. split; [reflexivity | discriminate].
Qed.

(** The request carries the parameter [time] exactly when [seconds] is true
    in a condition, and then with the value of [seconds]. *)
Lemma image_params_time uuid width seconds :
  image_params uuid width seconds !! "time" =
    if py_truthy seconds then Some seconds else None.
Proof. unfold image_params. now destruct (py_truthy seconds). Qed.

(** C10.  [seconds=0] is [seconds=None]: [get_image] and [save_image] are the
    same computations for both, the parameters of the request are the same
    and hold no [time]; in general the request holds [time] if and only if
    [seconds] is a true value (not 0, not None). *)
Theorem get_image_seconds_zero self path width :
  get_image self width (VInt 0) = get_image self width default_seconds /\
  save_image self path width (VInt 0) = save_image self path width default_seconds /\
  (forall uuid,
     image_params uuid width (VInt 0) = image_params uuid width default_seconds /\
     image_params uuid width (VInt 0) !! "time" = None) /\
  (forall uuid seconds,
     is_Some (image_params uuid width seconds !! "time") <-> py_truthy seconds = true).
Proof.
  repeat split; try reflexivity.
  - rewrite image_params_time. destruct (py_truthy seconds); [reflexivity|].
    intros [? ?]. discriminate.
  - rewrite image_params_time. intros ->. eauto.
Qed.

End Images.

(** C2, witness.  The cases on the sample camera: a 200 with five bytes comes
    back, a 200 with content-length 0 and one without the header raise
    [ConnectionError], a 500 raises [Exception("Internal Server Error")]. *)
Lemma get_image_outcomes_witness :
  (get_image (RT := scripted (Ok (reply 200 true "OK" {[ "content-length" := "5" ]} "JFIF."))
                             (Raise ValueError))
     1 default_width default_seconds sample_world).1
    = Ok (reply 200 true "OK" {[ "content-length" := "5" ]} "JFIF.") /\
  (get_image (RT := scripted (Ok (reply 200 true "OK" {[ "content-length" := "0" ]} ""))
                             (Raise ValueError))
     1 default_width default_seconds sample_world).1
    = Raise unavailable /\
  (get_image (RT := scripted (Ok (reply 200 true "OK" ∅ "")) (Raise ValueError))
     1 default_width default_seconds sample_world).1
    = Raise unavailable /\
  (get_image (RT := scripted (Ok (reply 500 false "Internal Server Error" ∅ "oops"))
                             (Raise ValueError))
     1 default_width default_seconds sample_world).1
    = Raise (Exception [VStr "Internal Server Error"]).
Proof.
  split; [|split; [|split]].
  - destruct (get_image_outcomes
                (RT := scripted (Ok (reply 200 true "OK" {[ "content-length" := "5" ]} "JFIF."))
                                (Raise ValueError))
                1 default_width default_seconds sample_world
                (VStr "c4m3r4") (VStr "website_2=s3ss10n") _ eq_refl eq_refl)
      as (Hgood & _ & _ & _).
    apply Hgood; [reflexivity | reflexivity |].
    exists 5. split; [reflexivity | lia].
  - destruct (get_image_outcomes
                (RT := scripted (Ok (reply 200 true "OK" {[ "content-length" := "0" ]} ""))
                                (Raise ValueError))
                1 default_width default_seconds sample_world
                (VStr "c4m3r4") (VStr "website_2=s3ss10n") _ eq_refl eq_refl)
      as (_ & Hempty & _ & _).
    apply Hempty; [reflexivity | reflexivity |]. right. reflexivity.
  - destruct (get_image_outcomes
                (RT := scripted (Ok (reply 200 true "OK" ∅ "")) (Raise ValueError))
                1 default_width default_seconds sample_world
                (VStr "c4m3r4") (VStr "website_2=s3ss10n") _ eq_refl eq_refl)
      as (_ & Hempty & _ & _).
    apply Hempty; [reflexivity | reflexivity |]. left. reflexivity.
  - destruct (get_image_outcomes
                (RT := scripted (Ok (reply 500 false "Internal Server Error" ∅ "oops"))
                                (Raise ValueError))
                1 default_width default_seconds sample_world
                (VStr "c4m3r4") (VStr "website_2=s3ss10n") _ eq_refl eq_refl)
      as (_ & _ & _ & Hbad).
    apply Hbad. reflexivity.
Defined.

(** C2, counterexample.  A 304 is not a 2xx response, and the library judges
    it ok: [request] lets it through, and [get_image] raises
    [ConnectionError] for it, not the [Exception] of [request] with the
    reason phrase. *)
Lemma get_image_not_modified :
  (request (RT := scripted (Ok (reply 304 true "Not Modified" ∅ "")) (Raise ValueError))
     CAMERAS_GET_IMAGE_PATH
     (image_params (VStr "c4m3r4") default_width default_seconds)
     (VStr "website_2=s3ss10n") "GET" sample_world).1
    = Ok (reply 304 true "Not Modified" ∅ "") /\
  (get_image (RT := scripted (Ok (reply 304 true "Not Modified" ∅ "")) (Raise ValueError))
     1 default_width default_seconds sample_world).1
    = Raise unavailable /\
  (get_image (RT := scripted (Ok (reply 304 true "Not Modified" ∅ "")) (Raise ValueError))
     1 default_width default_seconds sample_world).1
    <> Raise (Exception [VStr "Not Modified"]).
Proof.
  split; [reflexivity|]. split; [reflexivity | discriminate].
Qed.

(** ** Saving an image *)

Section Saving.
Context `{RT : Runtime}.

Lemma new_file_unused w : open_files w !! new_file w = None.
Proof. unfold new_file. apply (not_elem_of_dom (open_files w)). apply is_fresh. Qed.

(** [save_image] on a camera whose dictionary has no key [get_image], when
    the file can be opened: the file is cut to length zero, and what happens
    next is decided by [get_image]. *)
Lemma save_image_run self path width seconds w :
  writable path = true ->
  attr w self "get_image" = None ->
  save_image self path width seconds w =
    match get_image self width seconds w with
    | (Ok r, w') =>
        (Ok tt, set_files (<[path := content r]> (files w)) (open_files w) w')
    | (Raise e, w') =>
        (Raise e, set_files (<[path := ""]> (files w))
                            (<[new_file w := path]> (open_files w)) w')
    end.
Proof.
  intros Hw Hn. unfold save_image, bind at 1, open_wb. rewrite Hw.
  unfold bind at 1, call_method.
  assert (Hn' : forall fs os, attr (set_files fs os w) self "get_image" = None)
    by (intros; exact Hn).
  rewrite Hn'.
  rewrite (files_blind_get_image self width seconds).
  destruct (files_blind_same (get_image self width seconds) w
              (files_blind_get_image self width seconds)) as [Hf Ho].
  destruct (get_image self width seconds w) as [[r|e] w']; simpl in *; [|reflexivity].
  unfold bind, file_write, file_close. simpl.
  rewrite lookup_insert_eq. simpl.
  rewrite lookup_insert_eq. simpl.
  rewrite insert_insert_eq, delete_insert_eq, (delete_id _ _ (new_file_unused w)).
  reflexivity.
Qed.

(** [save_image] on a camera whose dictionary has a key [get_image]: the
    file is cut to length zero, the value found is called, and nothing is
    requested. *)
Lemma save_image_shadowed self path width seconds w v :
  writable path = true ->
  attr w self "get_image" = Some v ->
  save_image self path width seconds w =
    (Raise TypeError,
     set_files (<[path := ""]> (files w)) (<[new_file w := path]> (open_files w)) w).
Proof.
  intros Hw Hv. unfold save_image, bind at 1, open_wb. rewrite Hw.
  unfold bind at 1, call_method.
  assert (Hv' : forall fs os, attr (set_files fs os w) self "get_image" = Some v)
    by (intros; exact Hv).
  now rewrite Hv'.
Qed.

(** C5.  On a camera whose [get_image] is the method of its class (its
    dictionary has no key of that name): when the file can be opened and
    [get_image] succeeds with a response, [save_image] returns and the file
    at [path] holds exactly the response body, whatever it held before; no
    other file changes and the file object is closed again. *)
Theorem save_image_writes_body self path width seconds w r w' :
  writable path = true ->
  attr w self "get_image" = None ->
  get_image self width seconds w = (Ok r, w') ->
  exists w'',
    save_image self path width seconds w = (Ok tt, w'') /\
    files w'' !! path = Some (content r) /\
    (forall other, other <> path -> files w'' !! other = files w !! other) /\
    open_files w'' = open_files w.
Proof.
  intros Hw Hn Hg. rewrite (save_image_run _ _ _ _ _ Hw Hn), Hg.
  eexists. split; [reflexivity|]. simpl. repeat split.
  - apply lookup_insert_eq.
  - intros other Hne. now apply lookup_insert_ne.
Qed.

(** C9.  The file is opened, and so cut to length zero, before the image is
    requested.  When [path] holds a file and the call of [get_image] raises,
    [save_image] raises the same exception and the file at [path] is left
    empty.  This is so when [get_image] itself raises (the camera is off,
    say), and also when the camera's dictionary has a key [get_image]: then
    the call is a TypeError and nothing is requested. *)
Theorem save_image_error_truncates self path width seconds w old :
  writable path = true ->
  files w !! path = Some old ->
  (forall e w',
     attr w self "get_image" = None ->
     get_image self width seconds w = (Raise e, w') ->
     exists w'',
       save_image self path width seconds w = (Raise e, w'') /\
       files w'' !! path = Some "") /\
  (forall v,
     attr w self "get_image" = Some v ->
     exists w'',
       save_image self path width seconds w = (Raise TypeError, w'') /\
       files w'' !! path = Some "" /\
       sent w'' = sent w).
Proof.
  intros Hw _. split.
  - intros e w' Hn Hg. rewrite (save_image_run _ _ _ _ _ Hw Hn), Hg.
    eexists. split; [reflexivity|]. simpl. apply lookup_insert_eq.
  - intros v Hv. rewrite (save_image_shadowed _ _ _ _ _ _ Hw Hv).
    eexists. split; [reflexivity|]. simpl.
    split; [apply lookup_insert_eq | reflexivity].
Qed.

End Saving.

(** C5, witness on the sample camera: the old snapshot is replaced by the five bytes
    of the response. *)
Lemma save_image_writes_body_witness :
  exists w'',
    save_image (RT := scripted (Ok (reply 200 true "OK" {[ "content-length" := "5" ]} "JFIF."))
                               (Raise ValueError))
      1 "porch.jpg" default_width default_seconds sample_world = (Ok tt, w'') /\
    files w'' !! "porch.jpg" = Some "JFIF." /\
    (forall other, other <> "porch.jpg" -> files w'' !! other = files sample_world !! other) /\
    open_files w'' = open_files sample_world.
Proof.
  exact (save_image_writes_body
           (RT := scripted (Ok (reply 200 true "OK" {[ "content-length" := "5" ]} "JFIF."))
                           (Raise ValueError))
           1 "porch.jpg" default_width default_seconds sample_world
           (reply 200 true "OK" {[ "content-length" := "5" ]} "JFIF.")
           (set_sent [image_call (RT := scripted (Ok (reply 200 true "OK" ∅ "")) (Raise ValueError))
                        (VStr "c4m3r4") default_width default_seconds
                        (VStr "website_2=s3ss10n")] sample_world)
           eq_refl eq_refl eq_refl).
Defined.

(** C9, witness.  The sample camera while it is offline: the call raises
    [ConnectionError] and the old snapshot is gone.  The camera that was
    listed with an attribute [get_image]: TypeError, and the old snapshot is
    gone as well. *)
Lemma save_image_error_truncates_witness :
  (exists w'',
     save_image (RT := scripted (Ok (reply 200 true "OK" {[ "content-length" := "0" ]} ""))
                                (Raise ValueError))
       1 "porch.jpg" default_width default_seconds sample_world = (Raise unavailable, w'') /\
     files w'' !! "porch.jpg" = Some "") /\
  (exists w'',
     save_image (RT := scripted (Ok (reply 200 true "OK" {[ "content-length" := "5" ]} "JFIF."))
                                (Raise ValueError))
       4 "porch.jpg" default_width default_seconds shadowed_world = (Raise TypeError, w'') /\
     files w'' !! "porch.jpg" = Some "" /\
     sent w'' = []).
Proof.
  split.
  - destruct (save_image_error_truncates
                (RT := scripted (Ok (reply 200 true "OK" {[ "content-length" := "0" ]} ""))
                                (Raise ValueError))
                1 "porch.jpg" default_width default_seconds sample_world "yesterday"
                eq_refl eq_refl) as [Hraises _].
    exact (Hraises unavailable
             (set_sent [image_call (RT := scripted (Ok (reply 200 true "OK" ∅ ""))
                                                   (Raise ValueError))
                          (VStr "c4m3r4") default_width default_seconds
                          (VStr "website_2=s3ss10n")] sample_world)
             eq_refl eq_refl).
  - destruct (save_image_error_truncates
                (RT := scripted (Ok (reply 200 true "OK" {[ "content-length" := "5" ]} "JFIF."))
                                (Raise ValueError))
                4 "porch.jpg" default_width default_seconds shadowed_world "yesterday"
                eq_refl eq_refl) as [_ Hhidden].
    exact (Hhidden (VInt 5) eq_refl).
Defined.

(** ** Setting a property *)

Section Properties.
Context `{RT : Runtime}.

Lemma set_property_run self name value_ w u cookie :
  camera_session w self = Some (VStr u, cookie) ->
  set_property self name value_ w =
    (match http (sent w) (property_call u name value_ cookie) with
     | Ok r => if ok r then Ok tt else Raise (Exception [VStr (reason r)])
     | Raise e => Raise e
     end,
     set_sent (sent w ++ [property_call u name value_ cookie]) w).
Proof.
  intros Hs. destruct (camera_session_attrs _ _ _ _ Hs) as [Hu Hc].
  unfold set_property.
  rewrite (bind_ok _ _ _ _ _ Hu). unfold join_with.
  rewrite (bind_lift_ok _ _ _ _ eq_refl).
  rewrite (bind_ok _ _ _ _ _ Hu), (bind_ok _ _ _ _ _ Hc).
  unfold bind at 1. rewrite request_run by auto.
  fold (property_call u name value_ cookie).
  destruct (http (sent w) (property_call u name value_ cookie)) as [r|e]; [|reflexivity].
  now destruct (ok r).
Qed.

(** C6, amended.  For a camera with uuid [u] and every name and value that
    is None, a boolean, a number or a string, [set_property] makes exactly
    one library call: a POST to the properties
    path followed by [/] and the uuid, whose [params] are exactly
    [camera_uuid], [name] and [value], which has no request body, and whose
    Cookie header is the cookie of the owning account; when the library
    judges the response ok (as it does a 200) the call raises nothing and
    returns None. *)
Theorem set_property_posts_once self name value_ w u cookie r :
  camera_session w self = Some (VStr u, cookie) ->
  plain name = true -> plain value_ = true ->
  http (sent w) (property_call u name value_ cookie) = Ok r ->
  ok r = true ->
  set_property self name value_ w =
    (Ok tt, set_sent (sent w ++ [property_call u name value_ cookie]) w) /\
  rq_method (property_call u name value_ cookie) = "POST" /\
  rq_url (property_call u name value_ cookie) = PROPERTIES_PATH ++ "/" ++ u /\
  rq_params (property_call u name value_ cookie) =
    {[ "camera_uuid" := VStr u; "name" := name; "value" := value_ ]} /\
  rq_data (property_call u name value_ cookie) = None /\
  rq_headers (property_call u name value_ cookie) !! "Cookie" = Some cookie.
Proof.
  intros Hs _ _ Hr Hok. rewrite (set_property_run _ _ _ _ _ _ Hs), Hr, Hok.
  split; [reflexivity|]. split; [reflexivity|]. split; [reflexivity|].
  split; [reflexivity|]. split; [reflexivity|].
  unfold property_call, request_call, request_headers. simpl.
  apply lookup_insert_eq.
Qed.

End Properties.

(** C6, witness on the sample camera: switching streaming off. *)
Lemma set_property_posts_once_witness :
  set_property (RT := scripted (Ok (reply 200 true "OK" ∅ "{}")) (Raise ValueError))
     1 (VStr "streaming.enabled") (VBool false) sample_world
    = (Ok tt,
       set_sent [property_call (RT := scripted (Ok (reply 200 true "OK" ∅ "{}")) (Raise ValueError))
                   "c4m3r4" (VStr "streaming.enabled") (VBool false)
                   (VStr "website_2=s3ss10n")] sample_world).
Proof.
  exact (proj1 (set_property_posts_once
                  (RT := scripted (Ok (reply 200 true "OK" ∅ "{}")) (Raise ValueError))
                  1 (VStr "streaming.enabled") (VBool false) sample_world
                  "c4m3r4" (VStr "website_2=s3ss10n") (reply 200 true "OK" ∅ "{}")
                  eq_refl eq_refl eq_refl eq_refl eq_refl)).
Defined.

(** C6, counterexample.  Switching streaming off on the sample camera: the
    three fields travel as [params] (the query string), and the POST has no
    body that could hold them. *)
Lemma set_property_body_empty :
  exists c,
    sent (set_property (RT := scripted (Ok (reply 200 true "OK" ∅ "{}")) (Raise ValueError))
            1 (VStr "streaming.enabled") (VBool false) sample_world).2 = [c] /\
    rq_method c = "POST" /\
    rq_data c = None /\
    rq_data c <> Some {[ "camera_uuid" := VStr "c4m3r4";
                         "name" := VStr "streaming.enabled";
                         "value" := VBool false ]}.
Proof.
  eexists. split; [reflexivity|]. split; [reflexivity|]. split; [reflexivity|].
  discriminate.
Qed.

(** ** Logging in *)

Section Login.
Context `{RT : Runtime}.

(** The expression [response.get("items")[0].get("session_token")] has a
    value exactly when the response is an object whose [items] entry is a
    list that starts with an object; the value is that object's
    [session_token] entry, or None when it has none. *)
Lemma session_token_shape payload token :
  session_token payload = Ok token <->
  exists d first rest,
    payload = VDict d /\
    d !! "items" = Some (VList (VDict first :: rest)) /\
    token = default VNone (first !! "session_token").
Proof.
  split.
  - unfold session_token. destruct payload as [| | | | | |d|]; try discriminate.
    simpl. destruct (d !! "items") as [items|] eqn:Ei; simpl; [|discriminate].
    destruct items as [| | | |s|l|d'|]; try discriminate.
    + destruct s; discriminate.
    + destruct l as [|first rest]; [discriminate|]. simpl.
      destruct first as [| | | | | |fd|]; try discriminate.
      simpl. intros [= <-]. now exists d, fd, rest.
  - intros (d & first & rest & -> & Ei & ->).
    unfold session_token. simpl. rewrite Ei. reflexivity.
Qed.

Lemma session_token_fails payload :
  (forall d first rest,
     payload = VDict d -> d !! "items" <> Some (VList (VDict first :: rest))) ->
  exists e, session_token payload = Raise e.
Proof.
  intros Hshape. destruct (session_token payload) as [token|e] eqn:E; [|eauto].
  apply session_token_shape in E as (d & first & rest & -> & Ei & _).
  now destruct (Hshape d first rest eq_refl).
Qed.

Lemma login_run self w o u p :
  heap w !! self = Some o ->
  obj_dict o !! "_Dropcam__username" = Some u ->
  obj_dict o !! "_Dropcam__password" = Some p ->
  login self w =
    let w1 := set_sent (sent w ++ [login_call u p]) w in
    match http (sent w) (login_call u p) with
    | Ok r =>
        if ok r then
          match json_loads (content r) with
          | Ok payload =>
              match session_token payload with
              | Ok token => (Ok tt, logged_in self o ("website_2=" ++ py_str token) w1)
              | Raise e => (Raise e, w1)
              end
          | Raise e => (Raise e, w1)
          end
        else (Raise (Exception [VStr (reason r)]), w1)
    | Raise e => (Raise e, w1)
    end.
Proof.
  intros Ho Hu Hp.
  assert (Au : attr w self "_Dropcam__username" = Some u) by (unfold attr; now rewrite Ho).
  assert (Ap : attr w self "_Dropcam__password" = Some p) by (unfold attr; now rewrite Ho).
  unfold login.
  rewrite (bind_ok _ _ _ _ _ (getattr_attr _ _ _ _ Au)).
  rewrite (bind_ok _ _ _ _ _ (getattr_attr _ _ _ _ Ap)).
  unfold bind at 1. rewrite request_run by auto. fold (login_call u p).
  destruct (http (sent w) (login_call u p)) as [r|e]; [|reflexivity].
  destruct (ok r); [|reflexivity].
  unfold bind at 1, lift.
  destruct (json_loads (content r)) as [payload|e]; [|reflexivity].
  unfold bind, lift.
  destruct (session_token payload) as [token|e]; [|reflexivity].
  unfold setattr, logged_in. simpl. now rewrite Ho.
Qed.

(** C4, amended.  For an account holding its credentials, [login] makes one
    POST to the login path with them.  When the library judges the response
    ok and its body decodes to an object whose [items] entry is a list that
    starts with an object, [login] returns and the account's cookie is
    ["website_2="] followed by [str] of that object's [session_token] entry:
    for a string token the non-empty string made of the prefix and the
    token, and for a missing entry ["website_2=None"].  When the vendor
    rejects the credentials (the response is not ok, or the library raises),
    when the body does not decode, or when it is not of that shape, [login]
    raises and no instance changes, so the cookie stays as it was. *)
Theorem login_outcome self w o u p :
  heap w !! self = Some o ->
  obj_dict o !! "_Dropcam__username" = Some u ->
  obj_dict o !! "_Dropcam__password" = Some p ->
  let c := login_call u p in
  let w1 := set_sent (sent w ++ [c]) w in
  (forall r d first rest,
     http (sent w) c = Ok r -> ok r = true ->
     json_loads (content r) = Ok (VDict d) ->
     d !! "items" = Some (VList (VDict first :: rest)) ->
     exists cookie,
       login self w = (Ok tt, logged_in self o cookie w1) /\
       attr (logged_in self o cookie w1) self "cookie" = Some (VStr cookie) /\
       cookie = "website_2=" ++ py_str (default VNone (first !! "session_token")) /\
       cookie <> "" /\
       (forall t, first !! "session_token" = Some (VStr t) -> cookie = "website_2=" ++ t) /\
       (first !! "session_token" = None -> cookie = "website_2=None")) /\
  (forall r, http (sent w) c = Ok r -> ok r = false ->
     login self w = (Raise (Exception [VStr (reason r)]), w1)) /\
  (forall e, http (sent w) c = Raise e -> login self w = (Raise e, w1)) /\
  (forall r e, http (sent w) c = Ok r -> ok r = true ->
     json_loads (content r) = Raise e -> login self w = (Raise e, w1)) /\
  (forall r payload,
     http (sent w) c = Ok r -> ok r = true ->
     json_loads (content r) = Ok payload ->
     (forall d first rest,
        payload = VDict d -> d !! "items" <> Some (VList (VDict first :: rest))) ->
     exists e, login self w = (Raise e, w1)) /\
  heap w1 = heap w.
Proof.
  intros Ho Hu Hp c w1. pose proof (login_run self w o u p Ho Hu Hp) as E.
  cbv zeta in E. fold c in E. fold w1 in E.
  split; [|split; [|split; [|split; [|split]]]].
  - intros r d first rest Hr Hok Hj Hi.
    assert (Ht : session_token (VDict d) = Ok (default VNone (first !! "session_token"))).
    { apply session_token_shape. now exists d, first, rest. }
    rewrite Hr, Hok, Hj, Ht in E.
    exists ("website_2=" ++ py_str (default VNone (first !! "session_token"))).
    split; [exact E|]. split.
    + unfold attr, logged_in. simpl. rewrite lookup_insert_eq. simpl.
      apply lookup_insert_eq.
    + split; [reflexivity|]. split; [discriminate|]. split.
      * intros t ->. reflexivity.
      * intros ->. reflexivity.
  - intros r Hr Hok. now rewrite Hr, Hok in E.
  - intros e He. now rewrite He in E.
  - intros r e Hr Hok Hj. now rewrite Hr, Hok, Hj in E.
  - intros r payload Hr Hok Hj Hshape.
    destruct (session_token_fails payload Hshape) as [e He].
    exists e. now rewrite Hr, Hok, Hj, He in E.
  - reflexivity.
Qed.

End Login.

(** C4, witness on the sample account: the vendor issues the token [t0k3n]. *)
Lemma login_outcome_witness :
  exists cookie,
    (login (RT := scripted (Ok (reply 200 true "OK" ∅ "{..}"))
                    (Ok (VDict {[ "items" :=
                                    VList [VDict {[ "session_token" := VStr "t0k3n" ]}] ]})))
       0 signed_out_world).1 = Ok tt /\
    attr (login (RT := scripted (Ok (reply 200 true "OK" ∅ "{..}"))
                    (Ok (VDict {[ "items" :=
                                    VList [VDict {[ "session_token" := VStr "t0k3n" ]}] ]})))
            0 signed_out_world).2 0 "cookie" = Some (VStr cookie) /\
    cookie = "website_2=t0k3n".
Proof.
  destruct (login_outcome
              (RT := scripted (Ok (reply 200 true "OK" ∅ "{..}"))
                       (Ok (VDict {[ "items" :=
                                       VList [VDict {[ "session_token" := VStr "t0k3n" ]}] ]})))
              0 signed_out_world
              (Obj ClsDropcam
                 {[ "_Dropcam__username" := VStr "ann@example.org";
                    "_Dropcam__password" := VStr "hunter2";
                    "cookie" := VNone ]})
              (VStr "ann@example.org") (VStr "hunter2") eq_refl eq_refl eq_refl)
    as (Hgood & _).
  destruct (Hgood (reply 200 true "OK" ∅ "{..}")
              {[ "items" := VList [VDict {[ "session_token" := VStr "t0k3n" ]}] ]}
              {[ "session_token" := VStr "t0k3n" ]} [] eq_refl eq_refl eq_refl eq_refl)
    as (cookie & E & Ha & _ & _ & Ht & _).
  exists cookie. rewrite E. simpl. split; [reflexivity|]. split; [exact Ha|].
  apply Ht. reflexivity.
Defined.

(** C4, counterexample.  The first item has no [session_token], so the
    expected shape is absent; yet [login] returns, and the cookie, None
    before, is now ["website_2=None"]. *)
Lemma login_without_token :
  attr signed_out_world 0 "cookie" = Some VNone /\
  (login (RT := scripted (Ok (reply 200 true "OK" ∅ "{..}"))
                  (Ok (VDict {[ "items" := VList [VDict ∅] ]})))
     0 signed_out_world).1 = Ok tt /\
  attr (login (RT := scripted (Ok (reply 200 true "OK" ∅ "{..}"))
                  (Ok (VDict {[ "items" := VList [VDict ∅] ]})))
          0 signed_out_world).2 0 "cookie" = Some (VStr "website_2=None").
Proof. split; [reflexivity|]. split; reflexivity. Qed.

(** ** Listing the cameras *)

Section Listing.
Context `{RT : Runtime}.

Lemma fresh_address_free w : heap w !! fresh (dom (heap w)) = None.
Proof. apply (not_elem_of_dom (heap w)). apply is_fresh. Qed.

Lemma cameras_made_nil self w : cameras_made self w w [] [].
Proof.
  unfold cameras_made. repeat split; auto using Forall2_nil, NoDup_nil_2.
Qed.

(** Two runs of creations, one after the other. *)
Lemma cameras_made_app self w w1 w2 ls1 ls2 es1 es2 :
  cameras_made self w w1 ls1 es1 ->
  cameras_made self w1 w2 ls2 es2 ->
  cameras_made self w w2 (ls1 ++ ls2)%list (es1 ++ es2)%list.
Proof.
  intros (Hc1 & Hs1 & Hf1 & Hn1 & Hq1 & Hx1) (Hc2 & Hs2 & Hf2 & Hn2 & Hq2 & Hx2).
  unfold cameras_made. split; [|split; [|split; [|split; [|split]]]].
  - apply Forall2_app; [|exact Hc2].
    eapply Forall2_impl; [exact Hc1|]. simpl. intros l attrs Hl.
    eapply lookup_weaken; eauto.
  - etransitivity; eauto.
  - apply Forall_app. split; [exact Hf1|].
    eapply Forall_impl; [exact Hf2|]. simpl. intros l Hl.
    eapply lookup_weaken_None; eauto.
  - apply NoDup_app. split; [exact Hn1|]. split; [|exact Hn2].
    intros l Hin1 Hin2.
    assert (Hsome : is_Some (heap w1 !! l)).
    { apply (Forall2_Forall_l _ (fun l => is_Some (heap w1 !! l))) in Hc1.
      - rewrite Forall_forall in Hc1. auto.
      - apply Forall_forall. intros attrs _ l' Hl'. eauto. }
    rewrite Forall_forall in Hf2. rewrite (Hf2 l Hin2) in Hsome.
    now destruct Hsome.
  - congruence.
  - congruence.
Qed.

(** [Camera(self, attrs)] for a vendor object: a new instance at a free
    address. *)
Lemma new_Camera_object self attrs w :
  exists l w',
    new_Camera (VRef self) (VDict attrs) w = (Ok (VRef l), w') /\
    cameras_made self w w' [l] [attrs].
Proof.
  exists (fresh (dom (heap w))),
         (set_heap (<[fresh (dom (heap w)) := camera_object self attrs]> (heap w)) w).
  split; [reflexivity|].
  pose proof (fresh_address_free w) as Hfree.
  unfold cameras_made. simpl. repeat split.
  - constructor; [|constructor]. apply lookup_insert_eq.
  - now apply insert_subseteq.
  - constructor; [exact Hfree | constructor].
  - apply NoDup_singleton.
Qed.

(** The inner loop over a list of vendor objects. *)
Lemma cameras_owned_objects self es :
  forall acc w, exists ls w',
    cameras_owned self (VDict <$> es) acc w = (Ok (acc ++ (VRef <$> ls))%list, w') /\
    cameras_made self w w' ls es.
Proof.
  induction es as [|attrs es IH]; intros acc w.
  - exists [], w. simpl. rewrite app_nil_r. split; [reflexivity|].
    apply cameras_made_nil.
  - destruct (new_Camera_object self attrs w) as (l & w1 & Hnew & Hmade1).
    destruct (IH (acc ++ [VRef l])%list w1) as (ls & w2 & Hrest & Hmade2).
    exists (l :: ls), w2. split.
    + rewrite fmap_cons. cbn [cameras_owned].
      rewrite (bind_ok _ _ _ _ _ Hnew), Hrest.
      now rewrite <- app_assoc.
    + exact (cameras_made_app self w w1 w2 [l] ls [attrs] es Hmade1 Hmade2).
Qed.

(** The outer loop over a list of groups. *)
Lemma cameras_items_groups self groups :
  forall acc w, exists ls w',
    cameras_items self (group_value <$> groups) acc w = (Ok (acc ++ (VRef <$> ls))%list, w') /\
    cameras_made self w w' ls (mjoin (snd <$> groups)).
Proof.
  induction groups as [|g groups IH]; intros acc w.
  - exists [], w. simpl. rewrite app_nil_r. split; [reflexivity|].
    apply cameras_made_nil.
  - destruct (cameras_owned_objects self g.2 acc w) as (ls1 & w1 & Hin & Hmade1).
    destruct (IH (acc ++ (VRef <$> ls1))%list w1) as (ls2 & w2 & Hrest & Hmade2).
    exists (ls1 ++ ls2)%list, w2. split.
    + rewrite fmap_cons. cbn [cameras_items].
      assert (Ho : py_get (group_value g) "owned" = Ok (VList (VDict <$> g.2))).
      { unfold group_value, py_get. now rewrite lookup_insert_eq. }
      rewrite (bind_lift_ok _ _ _ _ Ho).
      rewrite (bind_lift_ok (py_iter (VList (VDict <$> g.2))) _ _ (VDict <$> g.2) eq_refl).
      rewrite (bind_ok _ _ _ _ _ Hin), Hrest.
      now rewrite fmap_app, app_assoc.
    + simpl. now apply (cameras_made_app self w w1 w2).
Qed.

(** C1.  For an account holding a cookie and a response the library judges
    ok whose body decodes to an object: when the object's [status] equals 0
    and its [items] are groups whose [owned] entries are lists of camera
    objects, [cameras] returns one new Camera instance per owned entry, in
    the order of the payload (groups in order, entries in order within a
    group), entries that repeat included, so that the length of the result
    is the sum of the lengths of the owned lists; each instance holds the
    entry's attributes over the back-reference to the account.  When the
    [status] differs from 0, [cameras] raises the generic [Exception] with
    exactly the status and the [status_detail] entry as arguments. *)
Theorem cameras_outcome self w cookie r payload :
  attr w self "cookie" = Some cookie ->
  http (sent w) (cameras_call cookie) = Ok r ->
  ok r = true ->
  json_loads (content r) = Ok (VDict payload) ->
  (py_ne_zero (default VNone (payload !! "status")) = false ->
   forall groups,
     payload !! "items" = Some (VList (group_value <$> groups)) ->
     exists ls w',
       cameras self w = (Ok (VRef <$> ls), w') /\
       length ls = sum_list (length <$> (snd <$> groups)) /\
       Forall2 (fun l attrs => heap w' !! l = Some (camera_object self attrs))
               ls (mjoin (snd <$> groups)) /\
       NoDup ls /\
       heap w ⊆ heap w') /\
  (py_ne_zero (default VNone (payload !! "status")) = true ->
   cameras self w =
     (Raise (Exception [default VNone (payload !! "status");
                        default VNone (payload !! "status_detail")]),
      set_sent (sent w ++ [cameras_call cookie]) w)).
Proof.
  intros Hc Hr Hok Hj.
  assert (Hrun : forall k : response -> M (list value),
            bind (request CAMERAS_GET_VISIBLE {[ "group_cameras" := VBool true ]} cookie "GET") k w
            = k r (set_sent (sent w ++ [cameras_call cookie]) w)).
  { intros k. unfold bind. rewrite request_run by auto.
    fold (cameras_call cookie). now rewrite Hr, Hok. }
  split.
  - intros Hz groups Hi. unfold cameras.
    rewrite (bind_ok _ _ _ _ _ (getattr_attr _ _ _ _ Hc)), Hrun.
    rewrite (bind_lift_ok _ _ _ _ Hj).
    rewrite (bind_lift_ok (py_get (VDict payload) "status") _ _ _ eq_refl), Hz.
    rewrite (bind_lift_ok (py_get (VDict payload) "items") _ _ _ eq_refl), Hi.
    rewrite (bind_lift_ok (py_iter (default VNone (Some (VList (group_value <$> groups)))))
               _ _ (group_value <$> groups) eq_refl).
    destruct (cameras_items_groups self groups []
                (set_sent (sent w ++ [cameras_call cookie]) w))
      as (ls & w' & Hloop & Hmade & Hsub & _ & Hnodup & _).
    exists ls, w'. split; [exact Hloop|]. split; [|split; [|split]]; auto.
    rewrite (Forall2_length _ _ _ Hmade). apply length_join.
  - intros Hnz. unfold cameras.
    rewrite (bind_ok _ _ _ _ _ (getattr_attr _ _ _ _ Hc)), Hrun.
    rewrite (bind_lift_ok _ _ _ _ Hj).
    rewrite (bind_lift_ok (py_get (VDict payload) "status") _ _ _ eq_refl), Hnz.
    rewrite (bind_lift_ok (py_get (VDict payload) "status_detail") _ _ _ eq_refl).
    reflexivity.
Qed.

(** Equality with 0 is Python's: for an integer status it is the usual one. *)
Lemma py_ne_zero_int z : py_ne_zero (VInt z) = false <-> z = 0.
Proof. simpl. rewrite negb_false_iff. apply Z.eqb_eq. Qed.

End Listing.

(** C1, witness on the sample account: three owned entries, one of them repeated,
    give three cameras; a status of 401 gives [Exception(401, detail)]. *)
Lemma cameras_outcome_witness :
  (exists ls w',
     cameras (RT := scripted (Ok (reply 200 true "OK" ∅ "{..}")) (Ok (VDict sample_listing)))
       0 sample_world = (Ok (VRef <$> ls), w') /\
     length ls = 3%nat) /\
  cameras (RT := scripted (Ok (reply 200 true "OK" ∅ "{..}")) (Ok (VDict refused_listing)))
    0 sample_world
  = (Raise (Exception [VInt 401; VStr "session expired"]),
     set_sent [cameras_call (RT := scripted (Ok (reply 200 true "OK" ∅ "{..}"))
                                            (Ok (VDict refused_listing)))
                 (VStr "website_2=s3ss10n")] sample_world).
Proof.
  split.
  - destruct (cameras_outcome
                (RT := scripted (Ok (reply 200 true "OK" ∅ "{..}")) (Ok (VDict sample_listing)))
                0 sample_world (VStr "website_2=s3ss10n") (reply 200 true "OK" ∅ "{..}")
                sample_listing eq_refl eq_refl eq_refl eq_refl) as [Hzero _].
    destruct (Hzero eq_refl sample_groups eq_refl) as (ls & w' & E & Hlen & _).
    exists ls, w'. split; [exact E | exact Hlen].
  - destruct (cameras_outcome
                (RT := scripted (Ok (reply 200 true "OK" ∅ "{..}")) (Ok (VDict refused_listing)))
                0 sample_world (VStr "website_2=s3ss10n") (reply 200 true "OK" ∅ "{..}")
                refused_listing eq_refl eq_refl eq_refl eq_refl) as [_ Hrefused].
    exact (Hrefused eq_refl).
Defined.

(** ** Querying events *)

Section Events.
Context `{RT : Runtime}.

(** X2.  [events] up to its loop, on a camera whose attributes are in place
    and with a response that decodes: exactly one GET is made to the event
    path with the camera's uuid and the given bounds (the clock standing in
    for an omitted [end]), and the loop then fails on the unbound name
    [items] with NameError. *)
Lemma events_unbound_items self start end_ w uuid cookie s r payload :
  globals w !! "items" = None ->
  py_int start = Ok s ->
  camera_session w self = Some (uuid, cookie) ->
  http (sent w) (events_call uuid s (end_time w end_) cookie) = Ok r ->
  ok r = true ->
  json_loads (content r) = Ok payload ->
  events self start end_ w =
    (Raise (NameError "items"),
     set_sent (sent w ++ [events_call uuid s (end_time w end_) cookie]) w).
Proof.
  intros Hg Hs Hcam Hr Hok Hj.
  destruct (camera_session_attrs _ _ _ _ Hcam) as [Hu Hc].
  unfold events. rewrite (bind_lift_ok _ _ _ _ Hs).
  assert (He : forall k : value -> M (list value),
            bind (match end_ with
                  | VNone => t <- now ;; ret (VInt t)
                  | _ => ret end_
                  end) k w = k (end_time w end_) w).
  { intros k. now destruct end_. }
  rewrite He, (bind_ok _ _ _ _ _ Hu), (bind_ok _ _ _ _ _ Hc).
  unfold bind at 1. rewrite request_run by auto.
  fold (events_call uuid s (end_time w end_) cookie). rewrite Hr, Hok.
  rewrite (bind_lift_ok _ _ _ _ Hj).
  unfold bind, load_global. simpl. now rewrite Hg.
Qed.

Lemma globals_request url params cookie method w :
  globals (request url params cookie method w).2 = globals w.
Proof.
  unfold request. destruct (http_methods !! method); [|reflexivity].
  unfold bind, http_request.
  destruct (http (sent w) (request_call url params cookie s)) as [r|e]; [|reflexivity].
  now destruct (ok r).
Qed.

(** C3.  In a world where no global is called [items]
    (the module defines none), [events] never returns a list: whatever the
    camera, the bounds and the vendor's answer, it raises. *)
Theorem events_never_returns self start end_ w :
  globals w !! "items" = None ->
  exists e w', events self start end_ w = (Raise e, w').
Proof.
  intros Hg. unfold events.
  destruct (py_int start) as [s|e]; [|eexists _, _; reflexivity].
  rewrite (bind_lift_ok _ _ _ _ eq_refl).
  assert (He : forall k : value -> M (list value),
            bind (match end_ with
                  | VNone => t <- now ;; ret (VInt t)
                  | _ => ret end_
                  end) k w = k (end_time w end_) w).
  { intros k. now destruct end_. }
  rewrite He. unfold bind at 1.
  destruct (getattr (VRef self) "uuid" w) as [[uuid|e] w1] eqn:Eu;
    [|eexists _, _; reflexivity].
  assert (w1 = w) as ->.
  { unfold getattr in Eu. repeat case_match; congruence. }
  unfold bind at 1.
  destruct (account_cookie self w) as [[cookie|e] w2] eqn:Ec;
    [|eexists _, _; reflexivity].
  assert (w2 = w) as ->.
  { unfold account_cookie, bind, getattr in Ec. repeat case_match; congruence. }
  unfold bind at 1.
  pose proof (globals_request EVENT_PATH
                {[ "uuid" := uuid; "start_time" := VInt s; "end_time" := end_time w end_ ]}
                cookie "GET" w) as Hgl.
  destruct (request EVENT_PATH _ cookie "GET" w) as [[r|e] w3];
    [|eexists _, _; reflexivity].
  simpl in Hgl. unfold bind at 1, lift.
  destruct (json_loads (content r)) as [payload|e]; [|eexists _, _; reflexivity].
  unfold bind, load_global. rewrite Hgl, Hg. eexists _, _; reflexivity.
Qed.

End Events.

(** C3, witness on the sample camera: a week of events is asked for, the vendor
    answers with one event, and the call raises [NameError]. *)
Lemma events_never_returns_witness :
  exists e w',
    events (RT := scripted (Ok (reply 200 true "OK" ∅ "{..}"))
                     (Ok (VDict {[ "items" := VList [VDict {[ "type" := VStr "motion" ]}] ]})))
      1 (VInt 1445731200) VNone sample_world = (Raise e, w').
Proof.
  exact (events_never_returns
           (RT := scripted (Ok (reply 200 true "OK" ∅ "{..}"))
                    (Ok (VDict {[ "items" := VList [VDict {[ "type" := VStr "motion" ]}] ]})))
           1 (VInt 1445731200) VNone sample_world eq_refl).
Defined.

(** X2, witness: the same call, evaluated.  The request went out with
    [end_time] set to the clock, and the exception names [items]. *)
Lemma events_unbound_items_witness :
  events (RT := scripted (Ok (reply 200 true "OK" ∅ "{..}"))
                   (Ok (VDict {[ "items" := VList [VDict {[ "type" := VStr "motion" ]}] ]})))
    1 (VInt 1445731200) VNone sample_world
  = (Raise (NameError "items"),
     set_sent [events_call (RT := scripted (Ok (reply 200 true "OK" ∅ "{..}")) (Raise ValueError))
                 (VStr "c4m3r4") 1445731200 (VInt 1446336000)
                 (VStr "website_2=s3ss10n")] sample_world).
Proof.
  exact (events_unbound_items
           (RT := scripted (Ok (reply 200 true "OK" ∅ "{..}"))
                    (Ok (VDict {[ "items" := VList [VDict {[ "type" := VStr "motion" ]}] ]})))
           1 (VInt 1445731200) VNone sample_world
           (VStr "c4m3r4") (VStr "website_2=s3ss10n") 1445731200
           (reply 200 true "OK" ∅ "{..}")
           (VDict {[ "items" := VList [VDict {[ "type" := VStr "motion" ]}] ]})
           eq_refl eq_refl eq_refl eq_refl eq_refl eq_refl).
Defined.

(** * Further properties of the module *)

(** ** What every operation leaves alone *)

Lemma heap_grows_bind {A B} (m : M A) (k : A -> M B) :
  heap_grows m -> (forall a, heap_grows (k a)) -> heap_grows (bind m k).
Proof.
  intros Hm Hk w. unfold bind. specialize (Hm w).
  destruct (m w) as [[a|e] w1]; simpl in *; [|exact Hm].
  etransitivity; [exact Hm | apply Hk].
Qed.

Lemma heap_stable_grows {A} (m : M A) : heap_stable m -> heap_grows m.
Proof. intros Hm w. now rewrite Hm. Qed.

Lemma files_stable_bind {A B} (m : M A) (k : A -> M B) :
  files_stable m -> (forall a, files_stable (k a)) -> files_stable (bind m k).
Proof.
  intros Hm Hk w. unfold bind. destruct (Hm w) as [Hf Ho].
  destruct (m w) as [[a|e] w1]; simpl in *; [|auto].
  destruct (Hk a w1) as [Hf' Ho']. split; congruence.
Qed.

Lemma sends_weaken {A} (m : M A) a b :
  (a <= b)%nat -> sends a m -> sends b m.
Proof. intros Hab Hm w. destruct (Hm w) as (cs & E & Hn). exists cs. split; [exact E | lia]. Qed.

Lemma sends_bind {A B} (m : M A) (k : A -> M B) a b :
  sends a m -> (forall x, sends b (k x)) -> sends (a + b) (bind m k).
Proof.
  intros Hm Hk w. unfold bind. destruct (Hm w) as (cs & E & Hn).
  destruct (m w) as [[x|e] w1]; simpl in *.
  - destruct (Hk x w1) as (cs' & E' & Hn'). exists (cs ++ cs')%list. split.
    + now rewrite E', E, app_assoc.
    + rewrite length_app. lia.
  - exists cs. split; [exact E | lia].
Qed.

(** A step that calls nothing, then the rest. *)
Lemma sends_after {A B} (m : M A) (k : A -> M B) n :
  sends 0 m -> (forall x, sends n (k x)) -> sends n (bind m k).
Proof. intros Hm Hk. exact (sends_bind m k 0 n Hm Hk). Qed.

(** The one step that calls, then a rest that calls nothing. *)
Lemma sends_once {A B} (m : M A) (k : A -> M B) :
  sends 1 m -> (forall x, sends 0 (k x)) -> sends 1 (bind m k).
Proof. intros Hm Hk. exact (sends_bind m k 1 0 Hm Hk). Qed.

Lemma sends_nothing {A} (m : M A) w : sends 0 m -> sent (m w).2 = sent w.
Proof.
  intros Hm. destruct (Hm w) as (cs & E & Hn).
  destruct cs; [|simpl in Hn; lia]. now rewrite E, app_nil_r.
Qed.

Lemma sends_of_sent {A} (m : M A) :
  (forall w, sent (m w).2 = sent w) -> sends 0 m.
Proof. intros Hm w. exists []. rewrite Hm, app_nil_r. auto. Qed.

Create HintDb effects discriminated.

(** The effect of a sequence from the effects of its steps.  For calls, the
    steps before the one that calls and the steps after it call nothing. *)
Ltac effects :=
  repeat
    match goal with
    | |- heap_grows (bind _ _) => apply heap_grows_bind; [|intro]
    | |- heap_stable (bind _ _) => apply heap_stable_bind; [|intro]
    | |- files_stable (bind _ _) => apply files_stable_bind; [|intro]
    | |- sends 0 (bind _ _) => apply sends_after; [|intro]
    | |- sends 1 (bind _ _) =>
        first [ apply sends_after; [solve [eauto with effects]|intro]
              | apply sends_once; [|intro] ]
    | |- _ (if ?b then _ else _) => destruct b
    | |- _ (match ?o with Some _ => _ | None => _ end) => destruct o
    | |- _ => solve [eauto with effects]
    end.

Section Effects.
Context `{RT : Runtime}.

Lemma heap_grows_alloc o : heap_grows (alloc o).
Proof. intros w. simpl. apply insert_subseteq, fresh_address_free. Qed.

Lemma files_stable_ret {A} (a : A) : files_stable (ret a).
Proof. now intros w. Qed.

Lemma files_stable_raise {A} e : files_stable (@raise A e).
Proof. now intros w. Qed.

Lemma files_stable_lift {A} (r : result A) : files_stable (lift r).
Proof. now intros w. Qed.

Lemma files_stable_getattr v name : files_stable (getattr v name).
Proof. intros w. unfold getattr. repeat case_match; auto. Qed.

Lemma files_stable_setattr l name v : files_stable (setattr l name v).
Proof. intros w. unfold setattr. case_match; auto. Qed.

Lemma files_stable_alloc o : files_stable (alloc o).
Proof. now intros w. Qed.

Lemma files_stable_http c : files_stable (http_request c).
Proof. now intros w. Qed.

Lemma files_stable_now : files_stable now.
Proof. now intros w. Qed.

Lemma files_stable_load_global name : files_stable (load_global name).
Proof. intros w. unfold load_global. case_match; auto. Qed.

Lemma sends_ret {A} (a : A) : sends 0 (ret a).
Proof. now apply sends_of_sent. Qed.

Lemma sends_raise {A} e : sends 0 (@raise A e).
Proof. now apply sends_of_sent. Qed.

Lemma sends_lift {A} (r : result A) : sends 0 (lift r).
Proof. now apply sends_of_sent. Qed.

Lemma sends_getattr v name : sends 0 (getattr v name).
Proof. apply sends_of_sent. intros w. unfold getattr. now repeat case_match. Qed.

Lemma sends_setattr l name v : sends 0 (setattr l name v).
Proof. apply sends_of_sent. intros w. unfold setattr. now case_match. Qed.

Lemma sends_alloc o : sends 0 (alloc o).
Proof. now apply sends_of_sent. Qed.

Lemma heap_stable_now : heap_stable now.
Proof. now intros w. Qed.

Lemma heap_stable_load_global name : heap_stable (load_global name).
Proof. intros w. unfold load_global. now case_match. Qed.

Lemma sends_now : sends 0 now.
Proof. now apply sends_of_sent. Qed.

Lemma sends_load_global name : sends 0 (load_global name).
Proof. apply sends_of_sent. intros w. unfold load_global. now case_match. Qed.

Lemma sends_open_wb path : sends 0 (open_wb path).
Proof. apply sends_of_sent. intros w. unfold open_wb. now case_match. Qed.

Lemma sends_file_write f data : sends 0 (file_write f data).
Proof. apply sends_of_sent. intros w. unfold file_write. now case_match. Qed.

Lemma sends_file_close f : sends 0 (file_close f).
Proof. now apply sends_of_sent. Qed.

Lemma sends_http c : sends 1 (http_request c).
Proof. intros w. exists [c]. simpl. auto. Qed.

#[local] Hint Resolve heap_stable_grows heap_grows_alloc
  heap_stable_now heap_stable_load_global
  heap_stable_ret heap_stable_raise heap_stable_lift heap_stable_getattr
  heap_stable_http
  files_stable_ret files_stable_raise files_stable_lift files_stable_getattr
  files_stable_setattr files_stable_alloc files_stable_http files_stable_now
  files_stable_load_global
  sends_ret sends_raise sends_lift sends_getattr sends_setattr sends_alloc
  sends_now sends_load_global sends_open_wb sends_file_write sends_file_close
  sends_http : effects.

Lemma sends_request url params cookie method :
  sends 1 (request url params cookie method).
Proof.
  unfold request. destruct (http_methods !! method).
  - effects.
  - apply (sends_weaken _ 0); [lia | apply sends_raise].
Qed.

Lemma files_stable_request url params cookie method :
  files_stable (request url params cookie method).
Proof. unfold request. effects. Qed.

Lemma files_stable_account_cookie self : files_stable (account_cookie self).
Proof. unfold account_cookie. effects. Qed.

Lemma sends_account_cookie self : sends 0 (account_cookie self).
Proof. unfold account_cookie. effects. Qed.

Lemma heap_grows_new_Camera d p : heap_grows (new_Camera d p).
Proof. unfold new_Camera. effects. Qed.

Lemma files_stable_new_Camera d p : files_stable (new_Camera d p).
Proof. unfold new_Camera. effects. Qed.

Lemma sends_new_Camera d p : sends 0 (new_Camera d p).
Proof. unfold new_Camera. effects. Qed.

Lemma heap_grows_new_Event c p : heap_grows (new_Event c p).
Proof. unfold new_Event. effects. Qed.

Lemma files_stable_new_Event c p : files_stable (new_Event c p).
Proof. unfold new_Event. effects. Qed.

Lemma sends_new_Event c p : sends 0 (new_Event c p).
Proof. unfold new_Event. effects. Qed.

#[local] Hint Resolve heap_stable_request heap_stable_account_cookie
  sends_request files_stable_request files_stable_account_cookie
  sends_account_cookie heap_grows_new_Camera files_stable_new_Camera
  sends_new_Camera heap_grows_new_Event files_stable_new_Event
  sends_new_Event : effects.

(** The loops create instances and do nothing else. *)
Lemma heap_grows_cameras_owned self owned :
  forall acc, heap_grows (cameras_owned self owned acc).
Proof. induction owned; intros acc; cbn [cameras_owned]; effects. Qed.

Lemma files_stable_cameras_owned self owned :
  forall acc, files_stable (cameras_owned self owned acc).
Proof. induction owned; intros acc; cbn [cameras_owned]; effects. Qed.

Lemma sends_cameras_owned self owned :
  forall acc, sends 0 (cameras_owned self owned acc).
Proof. induction owned; intros acc; cbn [cameras_owned]; effects. Qed.

#[local] Hint Resolve heap_grows_cameras_owned files_stable_cameras_owned
  sends_cameras_owned : effects.

Lemma heap_grows_cameras_items self items :
  forall acc, heap_grows (cameras_items self items acc).
Proof. induction items; intros acc; cbn [cameras_items]; effects. Qed.

Lemma files_stable_cameras_items self items :
  forall acc, files_stable (cameras_items self items acc).
Proof. induction items; intros acc; cbn [cameras_items]; effects. Qed.

Lemma sends_cameras_items self items :
  forall acc, sends 0 (cameras_items self items acc).
Proof. induction items; intros acc; cbn [cameras_items]; effects. Qed.

Lemma heap_grows_events_items self items :
  forall acc, heap_grows (events_items self items acc).
Proof. induction items; intros acc; cbn [events_items]; effects. Qed.

Lemma files_stable_events_items self items :
  forall acc, files_stable (events_items self items acc).
Proof. induction items; intros acc; cbn [events_items]; effects. Qed.

Lemma sends_events_items self items :
  forall acc, sends 0 (events_items self items acc).
Proof. induction items; intros acc; cbn [events_items]; effects. Qed.

#[local] Hint Resolve heap_grows_cameras_items files_stable_cameras_items
  sends_cameras_items heap_grows_events_items files_stable_events_items
  sends_events_items : effects.

Lemma sends_login self : sends 1 (login self).
Proof. unfold login. effects. Qed.

Lemma files_stable_login self : files_stable (login self).
Proof. unfold login. effects. Qed.

Lemma sends_cameras self : sends 1 (cameras self).
Proof. unfold cameras. effects. Qed.

Lemma sends_get_image self width seconds : sends 1 (get_image self width seconds).
Proof. unfold get_image. effects. Qed.

Lemma heap_stable_get_image self width seconds :
  heap_stable (get_image self width seconds).
Proof. unfold get_image. effects. Qed.

Lemma files_stable_get_image self width seconds :
  files_stable (get_image self width seconds).
Proof. unfold get_image. effects. Qed.

(** Looking a method up on the instance adds no effect to the method's. *)
Lemma sends_call_method {A} n self name (m : M A) :
  sends n m -> sends n (call_method self name m).
Proof.
  intros H w. unfold call_method. destruct (attr w self name); [|apply H].
  exists []. simpl. rewrite app_nil_r. split; [reflexivity | lia].
Qed.

Lemma heap_stable_call_method {A} self name (m : M A) :
  heap_stable m -> heap_stable (call_method self name m).
Proof.
  intros H w. unfold call_method. destruct (attr w self name); [reflexivity | apply H].
Qed.

#[local] Hint Resolve sends_login files_stable_login sends_get_image
  heap_stable_get_image files_stable_get_image : effects.

(** X3.  Every operation makes at most one call to the HTTP library, on
    every input and however it ends: logging in, constructing an account,
    listing cameras, setting a property, querying events, getting and saving
    an image.  Nothing is retried. *)
Theorem one_call_at_most :
  (forall self, sends 1 (login self)) /\
  (forall username password, sends 1 (new_Dropcam username password)) /\
  (forall self, sends 1 (cameras self)) /\
  (forall self name value_, sends 1 (set_property self name value_)) /\
  (forall self start end_, sends 1 (events self start end_)) /\
  (forall self width seconds, sends 1 (get_image self width seconds)) /\
  (forall self path width seconds, sends 1 (save_image self path width seconds)).
Proof.
  split; [|split; [|split; [|split; [|split; [|split]]]]]; intros.
  - apply sends_login.
  - unfold new_Dropcam. effects.
  - apply sends_cameras.
  - unfold set_property. effects.
  - unfold events. destruct end_; effects.
  - apply sends_get_image.
  - unfold save_image.
    apply sends_after; [apply sends_open_wb | intros f].
    apply sends_once; [apply sends_call_method, sends_get_image | intros r].
    effects.
Qed.

(** X4.  Only [save_image] touches the file system: logging in,
    constructing an account, listing cameras, setting a property, querying
    events and getting an image leave every file and every open file object
    as they were, on every input and however they end. *)
Theorem files_untouched :
  (forall self, files_stable (login self)) /\
  (forall username password, files_stable (new_Dropcam username password)) /\
  (forall self, files_stable (cameras self)) /\
  (forall self name value_, files_stable (set_property self name value_)) /\
  (forall self start end_, files_stable (events self start end_)) /\
  (forall self width seconds, files_stable (get_image self width seconds)).
Proof.
  split; [|split; [|split; [|split; [|split]]]]; intros.
  - apply files_stable_login.
  - unfold new_Dropcam. effects.
  - unfold cameras. effects.
  - unfold set_property. effects.
  - unfold events. destruct end_; effects.
  - apply files_stable_get_image.
Qed.

(** X5.  Listing cameras and querying events only create instances, and
    getting or saving an image creates none: every instance that existed
    before the call (the account with its cookie, cameras listed earlier)
    is there afterwards with the same attributes, on every input and however
    the call ends. *)
Theorem instances_kept :
  (forall self, heap_grows (cameras self)) /\
  (forall self start end_, heap_grows (events self start end_)) /\
  (forall self width seconds, heap_stable (get_image self width seconds)) /\
  (forall self path width seconds, heap_stable (save_image self path width seconds)).
Proof.
  split; [|split; [|split]]; intros.
  - unfold cameras. effects.
  - unfold events. destruct end_; effects.
  - apply heap_stable_get_image.
  - unfold save_image.
    apply heap_stable_bind; [intros w; unfold open_wb; now case_match|]. intros f.
    apply heap_stable_bind;
      [apply heap_stable_call_method, heap_stable_get_image|]. intros r.
    apply heap_stable_bind; [intros w; unfold file_write; now case_match|]. intros _.
    now intros w.
Qed.

End Effects.

#[export] Hint Resolve heap_stable_grows heap_grows_alloc
  heap_stable_now heap_stable_load_global
  heap_stable_ret heap_stable_raise heap_stable_lift heap_stable_getattr
  heap_stable_http heap_stable_request heap_stable_account_cookie
  files_stable_ret files_stable_raise files_stable_lift files_stable_getattr
  files_stable_setattr files_stable_alloc files_stable_http files_stable_now
  files_stable_load_global files_stable_request files_stable_account_cookie
  sends_ret sends_raise sends_lift sends_getattr sends_setattr sends_alloc
  sends_now sends_load_global sends_open_wb sends_file_write sends_file_close
  sends_http sends_request sends_account_cookie
  heap_grows_new_Camera files_stable_new_Camera sends_new_Camera
  heap_grows_cameras_owned files_stable_cameras_owned sends_cameras_owned
  heap_grows_cameras_items files_stable_cameras_items sends_cameras_items
  : effects.

(** ** Accounts *)

Section Accounts.
Context `{RT : Runtime}.

(** X6.  For an account holding its credentials, [login] makes exactly one
    call however it ends: a POST to the login path that carries the username
    and the password as [params] (the query string), has no body, and sends
    None as Cookie even when the account already holds a cookie. *)
Theorem login_sends_credentials self w o u p :
  heap w !! self = Some o ->
  obj_dict o !! "_Dropcam__username" = Some u ->
  obj_dict o !! "_Dropcam__password" = Some p ->
  exists c,
    sent (login self w).2 = (sent w ++ [c])%list /\
    rq_method c = "POST" /\
    rq_url c = LOGIN_PATH /\
    rq_params c = {[ "username" := u; "password" := p ]} /\
    rq_data c = None /\
    rq_headers c !! "Cookie" = Some VNone.
Proof.
  intros Ho Hu Hp. exists (login_call u p).
  split; [|split; [|split; [|split; [|split]]]]; try reflexivity.
  rewrite (login_run self w o u p Ho Hu Hp). cbv zeta.
  destruct (http (sent w) (login_call u p)) as [r|e]; [|reflexivity].
  destruct (ok r); [|reflexivity].
  destruct (json_loads (content r)) as [payload|e]; [|reflexivity].
  now destruct (session_token payload).
Qed.

(** What [login] does to the heap: nothing, or one assignment to the cookie
    of the account. *)
Lemma login_heap self w :
  heap (login self w).2 = heap w \/
  exists o v,
    heap w !! self = Some o /\
    heap (login self w).2 =
      <[self := Obj (obj_class o) (<["cookie" := v]> (obj_dict o))]> (heap w).
Proof.
  unfold login, bind.
  pose proof (heap_stable_getattr (VRef self) "_Dropcam__username" w) as H1.
  destruct (getattr (VRef self) "_Dropcam__username" w) as [[u|e] w1];
    simpl in H1; [|now left].
  pose proof (heap_stable_getattr (VRef self) "_Dropcam__password" w1) as H2.
  destruct (getattr (VRef self) "_Dropcam__password" w1) as [[p|e] w2];
    simpl in H2; [|left; simpl; congruence].
  pose proof (heap_stable_request LOGIN_PATH
                {[ "username" := u; "password" := p ]} VNone "POST" w2) as H3.
  destruct (request LOGIN_PATH _ VNone "POST" w2) as [[r|e] w3];
    simpl in H3; [|left; simpl; congruence].
  unfold lift.
  destruct (json_loads (content r)) as [payload|e]; [|left; simpl; congruence].
  destruct (session_token payload) as [token|e]; [|left; simpl; congruence].
  unfold setattr.
  assert (H4 : heap w3 = heap w) by congruence.
  destruct (heap w3 !! self) as [o|] eqn:Ho; [|left; simpl; congruence].
  right. exists o, (VStr ("website_2=" ++ py_str token)). simpl.
  rewrite <- H4. auto.
Qed.

(** X7.  [login] changes nothing but the cookie of the account it is called
    on: every other instance, the account's other attributes (its
    credentials) and its class are the same after the call, on every input
    and however the call ends. *)
Theorem login_changes_only_cookie self w :
  (forall l, l <> self -> heap (login self w).2 !! l = heap w !! l) /\
  (forall name, name <> "cookie" ->
     attr (login self w).2 self name = attr w self name) /\
  obj_class <$> heap (login self w).2 !! self = obj_class <$> heap w !! self.
Proof.
  destruct (login_heap self w) as [E | (o & v & Ho & E)].
  - unfold attr. rewrite E. auto.
  - unfold attr. rewrite E. split; [|split].
    + intros l Hl. now apply lookup_insert_ne.
    + intros name Hn. rewrite lookup_insert_eq, Ho. simpl.
      now apply lookup_insert_ne.
    + now rewrite lookup_insert_eq, Ho.
Qed.

(** The account under construction, before [login] runs. *)
Lemma new_Dropcam_run username password w :
  new_Dropcam username password w =
    let self := fresh (dom (heap w)) in
    let w0 := set_heap (<[self := Obj ClsDropcam
                                     {[ "_Dropcam__username" := username;
                                        "_Dropcam__password" := password;
                                        "cookie" := VNone ]}]> (heap w)) w in
    match login self w0 with
    | (Ok _, w') => (Ok self, w')
    | (Raise e, w') => (Raise e, w')
    end.
Proof.
  unfold new_Dropcam, bind at 1, alloc. cbv zeta. unfold bind.
  now destruct (login _ _) as [[[]|e] w'].
Qed.

(** X8.  [Dropcam(username, password)] makes one login call with the given
    credentials.  When the response is ok and its body is an object whose
    [items] start with an object, the constructor returns a new account, at
    an address that was free, holding the credentials and the cookie made
    from that object's session token, and every other instance is as before.
    When the vendor rejects the credentials, the library raises, the body
    does not decode or is not of that shape, the constructor raises what
    [login] raises, so the caller gets no account. *)
Theorem constructor_outcome username password w :
  let c := login_call username password in
  (forall r d first rest,
     http (sent w) c = Ok r -> ok r = true ->
     json_loads (content r) = Ok (VDict d) ->
     d !! "items" = Some (VList (VDict first :: rest)) ->
     exists self w',
       new_Dropcam username password w = (Ok self, w') /\
       heap w !! self = None /\
       attr w' self "_Dropcam__username" = Some username /\
       attr w' self "_Dropcam__password" = Some password /\
       attr w' self "cookie" =
         Some (VStr ("website_2=" ++ py_str (default VNone (first !! "session_token")))) /\
       (forall l, l <> self -> heap w' !! l = heap w !! l) /\
       sent w' = (sent w ++ [c])%list) /\
  (forall r, http (sent w) c = Ok r -> ok r = false ->
     (new_Dropcam username password w).1 = Raise (Exception [VStr (reason r)])) /\
  (forall e, http (sent w) c = Raise e ->
     (new_Dropcam username password w).1 = Raise e) /\
  (forall r e, http (sent w) c = Ok r -> ok r = true ->
     json_loads (content r) = Raise e ->
     (new_Dropcam username password w).1 = Raise e) /\
  (forall r payload e, http (sent w) c = Ok r -> ok r = true ->
     json_loads (content r) = Ok payload ->
     session_token payload = Raise e ->
     (new_Dropcam username password w).1 = Raise e).
Proof.
  intros c. rewrite new_Dropcam_run. cbv zeta.
  set (self := fresh (dom (heap w))).
  set (o := Obj ClsDropcam {[ "_Dropcam__username" := username;
                              "_Dropcam__password" := password;
                              "cookie" := VNone ]}).
  set (w0 := set_heap (<[self := o]> (heap w)) w).
  assert (Ho : heap w0 !! self = Some o) by apply lookup_insert_eq.
  pose proof (login_run self w0 o username password Ho eq_refl eq_refl) as E.
  cbv zeta in E. change (sent w0) with (sent w) in E. fold c in E.
  split; [|split; [|split; [|split]]].
  - intros r d first rest Hr Hok Hj Hi.
    assert (Ht : session_token (VDict d) = Ok (default VNone (first !! "session_token"))).
    { apply session_token_shape. now exists d, first, rest. }
    rewrite Hr, Hok, Hj, Ht in E. rewrite E.
    eexists self, _. split; [reflexivity|].
    split; [apply fresh_address_free|].
    unfold attr, logged_in. simpl. rewrite lookup_insert_eq. simpl.
    split; [reflexivity|]. split; [reflexivity|]. split; [reflexivity|].
    split; [|reflexivity].
    intros l Hl. rewrite lookup_insert_ne by congruence.
    now apply lookup_insert_ne.
  - intros r Hr Hok. now rewrite E, Hr, Hok.
  - intros e He. now rewrite E, He.
  - intros r e Hr Hok Hj. now rewrite E, Hr, Hok, Hj.
  - intros r payload e Hr Hok Hj Ht. now rewrite E, Hr, Hok, Hj, Ht.
Qed.

End Accounts.

(** X6, witness on the sample account, which already holds a cookie. *)
Lemma login_sends_credentials_witness :
  exists c,
    sent (login (RT := scripted (Ok (reply 403 false "Forbidden" ∅ "")) (Raise ValueError))
            0 sample_world).2 = [c] /\
    rq_method c = "POST" /\
    rq_url c = "https://www.dropcam.com/api/login.login" /\
    rq_params c = {[ "username" := VStr "ann@example.org"; "password" := VStr "hunter2" ]} /\
    rq_data c = None /\
    rq_headers c !! "Cookie" = Some VNone.
Proof.
  exact (login_sends_credentials
           (RT := scripted (Ok (reply 403 false "Forbidden" ∅ "")) (Raise ValueError))
           0 sample_world sample_account (VStr "ann@example.org") (VStr "hunter2")
           eq_refl eq_refl eq_refl).
Defined.

(** X8, witness: constructing the sample account in an empty heap. *)
Lemma constructor_outcome_witness :
  exists self w',
    new_Dropcam (RT := scripted (Ok (reply 200 true "OK" ∅ "{..}"))
                   (Ok (VDict {[ "items" :=
                                   VList [VDict {[ "session_token" := VStr "t0k3n" ]}] ]})))
      (VStr "ann@example.org") (VStr "hunter2") (set_heap ∅ sample_world) = (Ok self, w') /\
    attr w' self "cookie" = Some (VStr "website_2=t0k3n").
Proof.
  destruct (constructor_outcome
              (RT := scripted (Ok (reply 200 true "OK" ∅ "{..}"))
                       (Ok (VDict {[ "items" :=
                                       VList [VDict {[ "session_token" := VStr "t0k3n" ]}] ]})))
              (VStr "ann@example.org") (VStr "hunter2") (set_heap ∅ sample_world))
    as (Hgood & _).
  destruct (Hgood (reply 200 true "OK" ∅ "{..}")
              {[ "items" := VList [VDict {[ "session_token" := VStr "t0k3n" ]}] ]}
              {[ "session_token" := VStr "t0k3n" ]} [] eq_refl eq_refl eq_refl eq_refl)
    as (self & w' & E & _ & _ & _ & Hc & _).
  exists self, w'. split; [exact E | exact Hc].
Defined.

(** ** Cameras and their account *)

Section Cameras.
Context `{RT : Runtime}.

Lemma getattr_missing w l name :
  attr w l name = None -> getattr (VRef l) name w = (Raise AttributeError, w).
Proof.
  unfold attr, getattr. destruct (heap w !! l) as [o|]; simpl; [|reflexivity].
  now intros ->.
Qed.

(** X9.  A camera reads its account's cookie when it makes a request, not
    when it is listed: after the account logs in again and gets a new token,
    a camera listed before has the new cookie as its session, and its next
    image request carries the new cookie. *)
Theorem relogin_reaches_camera a cam w o u p uuid r d first rest width seconds :
  heap w !! a = Some o ->
  obj_dict o !! "_Dropcam__username" = Some u ->
  obj_dict o !! "_Dropcam__password" = Some p ->
  cam <> a ->
  attr w cam "uuid" = Some uuid ->
  attr w cam "dropcam" = Some (VRef a) ->
  http (sent w) (login_call u p) = Ok r -> ok r = true ->
  json_loads (content r) = Ok (VDict d) ->
  d !! "items" = Some (VList (VDict first :: rest)) ->
  exists w',
    login a w = (Ok tt, w') /\
    camera_session w' cam =
      Some (uuid, VStr ("website_2=" ++ py_str (default VNone (first !! "session_token")))) /\
    sent (get_image cam width seconds w').2 =
      (sent w' ++ [image_call uuid width seconds
                     (VStr ("website_2=" ++ py_str (default VNone (first !! "session_token"))))])%list.
Proof.
  intros Ho Hu Hp Hne Huuid Hd Hr Hok Hj Hi.
  assert (Ht : session_token (VDict d) = Ok (default VNone (first !! "session_token"))).
  { apply session_token_shape. now exists d, first, rest. }
  pose proof (login_run a w o u p Ho Hu Hp) as E. cbv zeta in E.
  rewrite Hr, Hok, Hj, Ht in E.
  eexists. split; [exact E|].
  match goal with |- camera_session ?w1 cam = Some (uuid, ?c) /\ _ =>
    assert (Hs : camera_session w1 cam = Some (uuid, c)) end.
  { unfold camera_session, attr in *. unfold logged_in. simpl.
    rewrite lookup_insert_ne by congruence.
    destruct (heap w !! cam) as [oc|]; simpl in *; [|discriminate].
    rewrite Huuid. simpl. rewrite Hd. simpl.
    rewrite lookup_insert_eq. simpl. now rewrite lookup_insert_eq. }
  split; [exact Hs|].
  now rewrite (get_image_run _ _ _ _ _ _ Hs).
Qed.

(** X10.  The uuid of a camera is never checked when it is listed.  On a
    camera without one, [set_property] and [get_image] raise AttributeError
    and do nothing else, and [events] does so once [start] has been
    converted.  [save_image] first opens, and so empties, the file; then it
    raises AttributeError as well, or TypeError when the camera's
    dictionary has a key [get_image].  None of them sends a request. *)
Theorem camera_without_uuid self w :
  attr w self "uuid" = None ->
  (forall name value_, set_property self name value_ w = (Raise AttributeError, w)) /\
  (forall width seconds, get_image self width seconds w = (Raise AttributeError, w)) /\
  (forall start end_ s, py_int start = Ok s ->
     events self start end_ w = (Raise AttributeError, w)) /\
  (forall path width seconds, writable path = true ->
     exists w',
       save_image self path width seconds w =
         (Raise (match attr w self "get_image" with
                 | Some _ => TypeError
                 | None => AttributeError
                 end), w') /\
       files w' !! path = Some "" /\ sent w' = sent w).
Proof.
  intros Hu. pose proof (getattr_missing _ _ _ Hu) as Hg.
  split; [|split; [|split]].
  - intros. unfold set_property. now rewrite (bind_raise _ _ _ _ _ Hg).
  - intros. unfold get_image. now rewrite (bind_raise _ _ _ _ _ Hg).
  - intros start end_ s Hs. unfold events. rewrite (bind_lift_ok _ _ _ _ Hs).
    destruct end_; unfold bind at 1; simpl; now rewrite (bind_raise _ _ _ _ _ Hg).
  - intros path width seconds Hw.
    assert (Hi : get_image self width seconds w = (Raise AttributeError, w)).
    { unfold get_image. now rewrite (bind_raise _ _ _ _ _ Hg). }
    destruct (attr w self "get_image") as [v|] eqn:Ev.
    + rewrite (save_image_shadowed _ _ _ _ _ _ Hw Ev).
      eexists. split; [reflexivity|]. simpl.
      split; [apply lookup_insert_eq | reflexivity].
    + rewrite (save_image_run _ _ _ _ _ Hw Ev), Hi.
      eexists. split; [reflexivity|]. simpl.
      split; [apply lookup_insert_eq | reflexivity].
Qed.

(** X11.  [set_property] builds its url by joining strings: on a camera whose
    uuid is not a string (a number in the listing, say) it raises TypeError
    and sends nothing. *)
Theorem set_property_uuid_not_string self name value_ w uuid :
  attr w self "uuid" = Some uuid ->
  (forall s, uuid <> VStr s) ->
  set_property self name value_ w = (Raise TypeError, w).
Proof.
  intros Hu Hs. unfold set_property.
  rewrite (bind_ok _ _ _ _ _ (getattr_attr _ _ _ _ Hu)).
  destruct uuid; try reflexivity. now destruct (Hs s).
Qed.

(** X12.  The vendor's attributes are merged over the back-reference: a
    listing entry with an attribute called [dropcam] gives a camera whose
    [dropcam] is that attribute, not the account.  As the attribute is plain
    data, the camera has no cookie to send: [get_image] and [set_property]
    raise AttributeError and send nothing. *)
Theorem listed_dropcam_attribute account attrs w x u :
  attrs !! "dropcam" = Some x ->
  (forall a, x <> VRef a) ->
  attrs !! "uuid" = Some (VStr u) ->
  exists cam w',
    new_Camera (VRef account) (VDict attrs) w = (Ok (VRef cam), w') /\
    attr w' cam "dropcam" = Some x /\
    (forall width seconds, get_image cam width seconds w' = (Raise AttributeError, w')) /\
    (forall name value_, set_property cam name value_ w' = (Raise AttributeError, w')).
Proof.
  intros Hx Hnot Hu.
  destruct (new_Camera_object account attrs w) as (cam & w' & Hnew & Hmade & _).
  inversion Hmade as [|? ? ? ? Hcam _]; subst.
  exists cam, w'. split; [exact Hnew|].
  assert (Ad : attr w' cam "dropcam" = Some x).
  { unfold attr. rewrite Hcam. simpl. now apply lookup_union_Some_l. }
  assert (Au : attr w' cam "uuid" = Some (VStr u)).
  { unfold attr. rewrite Hcam. simpl. now apply lookup_union_Some_l. }
  assert (Hc : account_cookie cam w' = (Raise AttributeError, w')).
  { unfold account_cookie. rewrite (bind_ok _ _ _ _ _ (getattr_attr _ _ _ _ Ad)).
    destruct x; try reflexivity. now destruct (Hnot l). }
  split; [exact Ad|]. split.
  - intros. unfold get_image.
    rewrite (bind_ok _ _ _ _ _ (getattr_attr _ _ _ _ Au)).
    now rewrite (bind_raise _ _ _ _ _ Hc).
  - intros. unfold set_property.
    rewrite (bind_ok _ _ _ _ _ (getattr_attr _ _ _ _ Au)). unfold join_with.
    rewrite (bind_lift_ok _ _ _ _ eq_refl).
    rewrite (bind_ok _ _ _ _ _ (getattr_attr _ _ _ _ Au)).
    now rewrite (bind_raise _ _ _ _ _ Hc).
Qed.

End Cameras.

(** ** More on images *)

Section ImageChecks.
Context `{RT : Runtime}.

Lemma int_of_string_error s e : int_of_string s = Raise e -> e = ValueError.
Proof. unfold int_of_string. case_match; congruence. Qed.

(** X13.  The length check of [get_image] tests for non-zero, not for
    positive, and does not guard the conversion: on an ok response with
    status 200, any content-length that parses to a non-zero integer, a
    negative one included, lets the response through, and a header that is
    not an integer numeral makes [get_image] raise ValueError, which is
    neither the response nor [ConnectionError]. *)
Theorem get_image_length_check self width seconds w uuid cookie r :
  camera_session w self = Some (uuid, cookie) ->
  http (sent w) (image_call uuid width seconds cookie) = Ok r ->
  ok r = true ->
  status_code r = 200 ->
  (forall n, content_length r = Ok n -> n <> 0 ->
     (get_image self width seconds w).1 = Ok r) /\
  (forall e, content_length r = Raise e ->
     e = ValueError /\ (get_image self width seconds w).1 = Raise ValueError).
Proof.
  intros Hs Hr Hok H200.
  rewrite (get_image_run _ _ _ _ _ _ Hs), Hr, Hok, H200. simpl. split.
  - intros n -> Hn. destruct (n =? 0) eqn:E; [lia | reflexivity].
  - intros e He. assert (e = ValueError) as ->.
    { unfold content_length in He. case_match; [|discriminate].
      eapply int_of_string_error; eauto. }
    now rewrite He.
Qed.

(** X14.  [get_image] accepts status 200 only.  Any other response the
    library judges ok (a 204, a 206 with a body) raises [ConnectionError],
    and its content-length header is not looked at, so it may be missing or
    malformed. *)
Theorem get_image_other_status self width seconds w uuid cookie r :
  camera_session w self = Some (uuid, cookie) ->
  http (sent w) (image_call uuid width seconds cookie) = Ok r ->
  ok r = true ->
  status_code r <> 200 ->
  get_image self width seconds w =
    (Raise unavailable, set_sent (sent w ++ [image_call uuid width seconds cookie]) w).
Proof.
  intros Hs Hr Hok Hne.
  rewrite (get_image_run _ _ _ _ _ _ Hs), Hr, Hok.
  destruct (status_code r =? 200) eqn:E; [lia | reflexivity].
Qed.

(** X15.  How [save_image] fails.  When the file cannot be opened it raises
    IOError and nothing else happens: no request is sent and no file
    changes.  When the file opens, an empty file is at [path] whether or not
    a file was there before, no other file changes, and on a failure the
    file object is never closed: if the camera's dictionary has a key
    [get_image], the failure is a TypeError and nothing is requested;
    otherwise, if [get_image] raises, [save_image] raises the same
    exception, with the requests [get_image] made. *)
Theorem save_image_failures self path width seconds w :
  (writable path = false ->
   save_image self path width seconds w = (Raise IOError, w)) /\
  (forall v, writable path = true ->
     attr w self "get_image" = Some v ->
     exists w'',
       save_image self path width seconds w = (Raise TypeError, w'') /\
       files w'' = <[path := ""]> (files w) /\
       open_files w'' = <[new_file w := path]> (open_files w) /\
       open_files w !! new_file w = None /\
       sent w'' = sent w) /\
  (forall e w', writable path = true ->
     attr w self "get_image" = None ->
     get_image self width seconds w = (Raise e, w') ->
     exists w'',
       save_image self path width seconds w = (Raise e, w'') /\
       files w'' = <[path := ""]> (files w) /\
       open_files w'' = <[new_file w := path]> (open_files w) /\
       open_files w !! new_file w = None /\
       sent w'' = sent w').
Proof.
  split; [|split].
  - intros Hw. unfold save_image, bind, open_wb. now rewrite Hw.
  - intros v Hw Hv. rewrite (save_image_shadowed _ _ _ _ _ _ Hw Hv).
    eexists. split; [reflexivity|]. simpl.
    split; [reflexivity|]. split; [reflexivity|]. split; [|reflexivity].
    apply new_file_unused.
  - intros e w' Hw Hn Hg. rewrite (save_image_run _ _ _ _ _ Hw Hn), Hg.
    eexists. split; [reflexivity|]. simpl.
    split; [reflexivity|]. split; [reflexivity|]. split; [|reflexivity].
    apply new_file_unused.
Qed.

End ImageChecks.

(** X13, witness on the sample camera: a content-length of -1 passes, and
    one with a unit raises ValueError. *)
Lemma get_image_length_check_witness :
  (get_image (RT := scripted (Ok (reply 200 true "OK" {[ "content-length" := "-1" ]} "JFIF."))
                             (Raise ValueError))
     1 default_width default_seconds sample_world).1
    = Ok (reply 200 true "OK" {[ "content-length" := "-1" ]} "JFIF.") /\
  (get_image (RT := scripted (Ok (reply 200 true "OK" {[ "content-length" := "5 bytes" ]} "JFIF."))
                             (Raise ValueError))
     1 default_width default_seconds sample_world).1
    = Raise ValueError.
Proof.
  split.
  - destruct (get_image_length_check
                (RT := scripted (Ok (reply 200 true "OK" {[ "content-length" := "-1" ]} "JFIF."))
                                (Raise ValueError))
                1 default_width default_seconds sample_world
                (VStr "c4m3r4") (VStr "website_2=s3ss10n") _ eq_refl eq_refl eq_refl eq_refl)
      as [Hpass _].
    apply (Hpass (-1)); [reflexivity | lia].
  - destruct (get_image_length_check
                (RT := scripted (Ok (reply 200 true "OK" {[ "content-length" := "5 bytes" ]} "JFIF."))
                                (Raise ValueError))
                1 default_width default_seconds sample_world
                (VStr "c4m3r4") (VStr "website_2=s3ss10n") _ eq_refl eq_refl eq_refl eq_refl)
      as [_ Hbad].
    apply (Hbad ValueError). reflexivity.
Defined.

(** X14, witness on the sample camera: a 206 with a body. *)
Lemma get_image_other_status_witness :
  (get_image (RT := scripted (Ok (reply 206 true "Partial Content"
                                    {[ "content-length" := "5" ]} "JFIF."))
                             (Raise ValueError))
     1 default_width default_seconds sample_world).1
    = Raise unavailable.
Proof.
  rewrite (get_image_other_status
             (RT := scripted (Ok (reply 206 true "Partial Content"
                                    {[ "content-length" := "5" ]} "JFIF."))
                             (Raise ValueError))
             1 default_width default_seconds sample_world
             (VStr "c4m3r4") (VStr "website_2=s3ss10n")
             (reply 206 true "Partial Content" {[ "content-length" := "5" ]} "JFIF.")
             eq_refl eq_refl eq_refl).
  - reflexivity.
  - simpl. lia.
Defined.

(** ** More on listing *)

Section ListingEdges.
Context `{RT : Runtime}.

(** [cameras] up to the decoding of the body. *)
Lemma cameras_decoded self w cookie r :
  attr w self "cookie" = Some cookie ->
  http (sent w) (cameras_call cookie) = Ok r ->
  ok r = true ->
  cameras self w =
    bind (lift (json_loads (content r)))
      (fun response =>
         status <- lift (py_get response "status") ;;
         if py_ne_zero status then
           detail <- lift (py_get response "status_detail") ;;
           raise (Exception [status; detail])
         else
           items <- lift (py_get response "items") ;;
           its <- lift (py_iter items) ;;
           cameras_items self its [])
      (set_sent (sent w ++ [cameras_call cookie]) w).
Proof.
  intros Hc Hr Hok. unfold cameras.
  rewrite (bind_ok _ _ _ _ _ (getattr_attr _ _ _ _ Hc)).
  unfold bind at 1. rewrite request_run by auto.
  fold (cameras_call cookie). now rewrite Hr, Hok.
Qed.

(** X16.  For an account holding a cookie, [cameras] makes exactly one call
    however it ends and whatever comes back: a GET (the default method of
    [request], not a POST) to the get_visible path with the single parameter
    [group_cameras] set to True and the account's cookie as Cookie header. *)
Theorem cameras_request self w cookie :
  attr w self "cookie" = Some cookie ->
  exists c,
    sent (cameras self w).2 = (sent w ++ [c])%list /\
    rq_method c = "GET" /\
    rq_url c = CAMERAS_GET_VISIBLE /\
    rq_params c = {[ "group_cameras" := VBool true ]} /\
    rq_data c = None /\
    rq_headers c !! "Cookie" = Some cookie.
Proof.
  intros Hc. exists (cameras_call cookie).
  split; [|split; [|split; [|split; [|split]]]]; try reflexivity;
    try apply lookup_insert_eq.
  unfold cameras. rewrite (bind_ok _ _ _ _ _ (getattr_attr _ _ _ _ Hc)).
  unfold bind at 1. rewrite request_run by auto. fold (cameras_call cookie).
  destruct (http (sent w) (cameras_call cookie)) as [r|e]; [|reflexivity].
  destruct (ok r); [|reflexivity].
  rewrite sends_nothing; [reflexivity|]. effects.
Qed.

(** X17.  A listing that lacks an entry [cameras] reads is an error.
    Behind an ok response: a body that does not decode raises what the
    decoder raises; a body that is not an object raises AttributeError; an
    object whose status equals 0 and that has no [items] raises TypeError;
    and so does one whose status equals 0 and whose [items] is a list that
    starts with a group without [owned]. *)
Theorem cameras_malformed self w cookie r :
  attr w self "cookie" = Some cookie ->
  http (sent w) (cameras_call cookie) = Ok r ->
  ok r = true ->
  (forall e, json_loads (content r) = Raise e -> (cameras self w).1 = Raise e) /\
  (forall v, json_loads (content r) = Ok v -> (forall d, v <> VDict d) ->
     (cameras self w).1 = Raise AttributeError) /\
  (forall payload, json_loads (content r) = Ok (VDict payload) ->
     py_ne_zero (default VNone (payload !! "status")) = false ->
     payload !! "items" = None ->
     (cameras self w).1 = Raise TypeError) /\
  (forall payload g rest, json_loads (content r) = Ok (VDict payload) ->
     py_ne_zero (default VNone (payload !! "status")) = false ->
     payload !! "items" = Some (VList (VDict g :: rest)) ->
     g !! "owned" = None ->
     (cameras self w).1 = Raise TypeError).
Proof.
  intros Hc Hr Hok. rewrite (cameras_decoded _ _ _ _ Hc Hr Hok).
  split; [|split; [|split]].
  - intros e He. now rewrite (bind_lift_raise _ _ _ _ He).
  - intros v Hv Hnot. rewrite (bind_lift_ok _ _ _ _ Hv).
    destruct v; try reflexivity. now destruct (Hnot d).
  - intros payload Hv Hz Hi. rewrite (bind_lift_ok _ _ _ _ Hv).
    rewrite (bind_lift_ok (py_get (VDict payload) "status") _ _ _ eq_refl), Hz.
    rewrite (bind_lift_ok (py_get (VDict payload) "items") _ _ _ eq_refl), Hi.
    reflexivity.
  - intros payload g rest Hv Hz Hi Hg. rewrite (bind_lift_ok _ _ _ _ Hv).
    rewrite (bind_lift_ok (py_get (VDict payload) "status") _ _ _ eq_refl), Hz.
    rewrite (bind_lift_ok (py_get (VDict payload) "items") _ _ _ eq_refl), Hi.
    rewrite (bind_lift_ok (py_iter (default VNone (Some (VList (VDict g :: rest)))))
               _ _ (VDict g :: rest) eq_refl).
    cbn [cameras_items].
    rewrite (bind_lift_ok (py_get (VDict g) "owned") _ _ _ eq_refl), Hg.
    reflexivity.
Qed.

Lemma cameras_created_nil w : cameras_created w w [].
Proof. unfold cameras_created. auto using NoDup_nil_2. Qed.

Lemma cameras_created_app w w1 w2 ls1 ls2 :
  cameras_created w w1 ls1 ->
  cameras_created w1 w2 ls2 ->
  cameras_created w w2 (ls1 ++ ls2)%list.
Proof.
  intros (Hc1 & Hn1 & Hs1) (Hc2 & Hn2 & Hs2).
  rewrite Forall_forall in Hc1. rewrite Forall_forall in Hc2.
  unfold cameras_created. split; [|split].
  - apply Forall_app. split; apply Forall_forall; intros l Hl.
    + destruct (Hc1 l Hl) as (Hfree & d & Hd). split; [exact Hfree|].
      exists d. eapply lookup_weaken; eauto.
    + destruct (Hc2 l Hl) as (Hfree & d & Hd). split; [|eauto].
      eapply lookup_weaken_None; eauto.
  - apply NoDup_app. split; [exact Hn1|]. split; [|exact Hn2].
    intros l Hl1 Hl2.
    destruct (Hc1 l Hl1) as (_ & d & Hd). destruct (Hc2 l Hl2) as (Hfree & _).
    congruence.
  - etransitivity; eauto.
Qed.

(** Whatever its argument, a constructor call that returns gives a new
    camera. *)
Lemma new_Camera_created dropcam params w c w' :
  new_Camera dropcam params w = (Ok c, w') ->
  exists l, c = VRef l /\ cameras_created w w' [l].
Proof.
  unfold new_Camera, bind, lift, alloc, ret.
  destruct (dict_update _ params) as [d|e]; [|discriminate].
  intros [= <- <-]. eexists. split; [reflexivity|].
  pose proof (fresh_address_free w) as Hfree.
  unfold cameras_created. simpl. split; [|split].
  - constructor; [|constructor]. split; [exact Hfree|].
    exists d. apply lookup_insert_eq.
  - apply NoDup_singleton.
  - now apply insert_subseteq.
Qed.

Lemma cameras_owned_created self owned :
  forall acc w out w',
    cameras_owned self owned acc w = (Ok out, w') ->
    exists ls, out = (acc ++ (VRef <$> ls))%list /\
               length ls = length owned /\ cameras_created w w' ls.
Proof.
  induction owned as [|p owned IH]; intros acc w out w'; cbn [cameras_owned].
  - intros [= <- <-]. exists []. simpl. rewrite app_nil_r.
    auto using cameras_created_nil.
  - unfold bind at 1.
    destruct (new_Camera (VRef self) p w) as [[c|e] w1] eqn:Hnew; [|discriminate].
    destruct (new_Camera_created _ _ _ _ _ Hnew) as (l & -> & Hone).
    intros Hrest. destruct (IH _ _ _ _ Hrest) as (ls & -> & Hlen & Hmore).
    exists (l :: ls). split; [now rewrite <- app_assoc|]. split; [simpl; lia|].
    exact (cameras_created_app w w1 w' [l] ls Hone Hmore).
Qed.

Lemma cameras_items_created self items :
  forall acc w out w',
    cameras_items self items acc w = (Ok out, w') ->
    exists ls, out = (acc ++ (VRef <$> ls))%list /\ cameras_created w w' ls.
Proof.
  induction items as [|item items IH]; intros acc w out w'; cbn [cameras_items].
  - intros [= <- <-]. exists []. simpl. rewrite app_nil_r.
    auto using cameras_created_nil.
  - unfold bind at 1, lift.
    destruct (py_get item "owned") as [owned|e]; [|discriminate].
    unfold bind at 1.
    destruct (py_iter owned) as [ps|e]; [|discriminate].
    unfold bind at 1.
    destruct (cameras_owned self ps acc w) as [[acc'|e] w1] eqn:Hin; [|discriminate].
    destruct (cameras_owned_created _ _ _ _ _ _ Hin) as (ls1 & -> & _ & H1).
    intros Hrest. destruct (IH _ _ _ _ Hrest) as (ls2 & -> & H2).
    exists (ls1 ++ ls2)%list. split; [now rewrite fmap_app, app_assoc|].
    exact (cameras_created_app w w1 w' ls1 ls2 H1 H2).
Qed.

(** X18.  Whenever [cameras] returns, whatever the payload was, its result
    holds nothing but cameras created by this call: each is an instance of
    Camera at an address that was free before, no two are the same instance,
    and the instances that existed before are unchanged.  Nothing is cached:
    listing again gives new instances and leaves the old ones as they were. *)
Theorem cameras_returns_new_instances self w out w' :
  cameras self w = (Ok out, w') ->
  exists ls,
    out = VRef <$> ls /\
    NoDup ls /\
    Forall (fun l => heap w !! l = None /\
                     exists d, heap w' !! l = Some (Obj ClsCamera d)) ls /\
    heap w ⊆ heap w'.
Proof.
  unfold cameras, bind at 1.
  pose proof (heap_stable_getattr (VRef self) "cookie" w) as H1.
  destruct (getattr (VRef self) "cookie" w) as [[cookie|e] w1]; [|discriminate].
  unfold bind at 1.
  pose proof (heap_stable_request CAMERAS_GET_VISIBLE
                {[ "group_cameras" := VBool true ]} cookie "GET" w1) as H2.
  destruct (request CAMERAS_GET_VISIBLE _ cookie "GET" w1) as [[r|e] w2];
    [|discriminate].
  simpl in H1, H2. unfold bind at 1, lift.
  destruct (json_loads (content r)) as [response|e]; [|discriminate].
  unfold bind at 1.
  destruct (py_get response "status") as [status|e]; [|discriminate].
  destruct (py_ne_zero status).
  { unfold bind, lift, raise. case_match; discriminate. }
  unfold bind at 1.
  destruct (py_get response "items") as [items|e]; [|discriminate].
  unfold bind at 1.
  destruct (py_iter items) as [its|e]; [|discriminate].
  intros Hloop.
  destruct (cameras_items_created _ _ _ _ _ _ Hloop) as (ls & -> & Hc & Hn & Hs).
  exists ls. rewrite <- H1, <- H2. auto.
Qed.

End ListingEdges.

(** X9, witness: the sample account logs in again and gets the token
    [n3wt0k3n]; the camera listed before now sends the new cookie. *)
Lemma relogin_reaches_camera_witness :
  exists w',
    login (RT := scripted (Ok (reply 200 true "OK" {[ "content-length" := "5" ]} "{..}"))
                   (Ok (VDict {[ "items" :=
                                   VList [VDict {[ "session_token" := VStr "n3wt0k3n" ]}] ]})))
      0 sample_world = (Ok tt, w') /\
    camera_session w' 1 = Some (VStr "c4m3r4", VStr "website_2=n3wt0k3n").
Proof.
  destruct (relogin_reaches_camera
              (RT := scripted (Ok (reply 200 true "OK" {[ "content-length" := "5" ]} "{..}"))
                       (Ok (VDict {[ "items" :=
                                       VList [VDict {[ "session_token" := VStr "n3wt0k3n" ]}] ]})))
              0 1 sample_world sample_account (VStr "ann@example.org") (VStr "hunter2")
              (VStr "c4m3r4") (reply 200 true "OK" {[ "content-length" := "5" ]} "{..}")
              {[ "items" := VList [VDict {[ "session_token" := VStr "n3wt0k3n" ]}] ]}
              {[ "session_token" := VStr "n3wt0k3n" ]} [] default_width default_seconds
              eq_refl eq_refl eq_refl ltac:(discriminate) eq_refl eq_refl
              eq_refl eq_refl eq_refl eq_refl)
    as (w' & E & Hs & _).
  exists w'. split; [exact E | exact Hs].
Defined.

(** X10, witness: the camera that was listed without a uuid. *)
Lemma camera_without_uuid_witness :
  set_property (RT := scripted (Ok (reply 200 true "OK" ∅ "{}")) (Raise ValueError))
    2 (VStr "streaming.enabled") (VBool false) odd_world = (Raise AttributeError, odd_world) /\
  get_image (RT := scripted (Ok (reply 200 true "OK" ∅ "{}")) (Raise ValueError))
    2 default_width default_seconds odd_world = (Raise AttributeError, odd_world) /\
  exists w',
    save_image (RT := scripted (Ok (reply 200 true "OK" ∅ "{}")) (Raise ValueError))
      2 "porch.jpg" default_width default_seconds odd_world = (Raise AttributeError, w') /\
    files w' !! "porch.jpg" = Some "" /\ sent w' = [].
Proof.
  destruct (camera_without_uuid
              (RT := scripted (Ok (reply 200 true "OK" ∅ "{}")) (Raise ValueError))
              2 odd_world eq_refl) as (Hset & Hget & _ & Hsave).
  split; [apply Hset|]. split; [apply Hget|].
  exact (Hsave "porch.jpg" default_width default_seconds eq_refl).
Defined.

(** X11, witness: the camera whose uuid is the number 42. *)
Lemma set_property_uuid_not_string_witness :
  set_property (RT := scripted (Ok (reply 200 true "OK" ∅ "{}")) (Raise ValueError))
    3 (VStr "streaming.enabled") (VBool false) odd_world = (Raise TypeError, odd_world).
Proof.
  apply (set_property_uuid_not_string
           (RT := scripted (Ok (reply 200 true "OK" ∅ "{}")) (Raise ValueError))
           3 (VStr "streaming.enabled") (VBool false) odd_world (VInt 42) eq_refl).
  discriminate.
Defined.

(** X12, witness: a listing entry that has an attribute called [dropcam]. *)
Lemma listed_dropcam_attribute_witness :
  exists cam w',
    new_Camera (RT := scripted (Ok (reply 200 true "OK" ∅ "{}")) (Raise ValueError))
      (VRef 0) (VDict branded_entry) sample_world
      = (Ok (VRef cam), w') /\
    attr w' cam "dropcam" = Some (VStr "pro").
Proof.
  destruct (listed_dropcam_attribute
              (RT := scripted (Ok (reply 200 true "OK" ∅ "{}")) (Raise ValueError))
              0 branded_entry sample_world (VStr "pro") "c4m3r4"
              eq_refl ltac:(discriminate) eq_refl)
    as (cam & w' & E & Ha & _).
  exists cam, w'. split; [exact E | exact Ha].
Defined.

(** X16, witness on the sample account, with a vendor that refuses. *)
Lemma cameras_request_witness :
  exists c,
    sent (cameras (RT := scripted (Ok (reply 503 false "Service Unavailable" ∅ ""))
                            (Raise ValueError)) 0 sample_world).2 = [c] /\
    rq_method c = "GET" /\
    rq_url c = "https://www.dropcam.com/api/cameras.get_visible" /\
    rq_params c = {[ "group_cameras" := VBool true ]} /\
    rq_data c = None /\
    rq_headers c !! "Cookie" = Some (VStr "website_2=s3ss10n").
Proof.
  exact (cameras_request
           (RT := scripted (Ok (reply 503 false "Service Unavailable" ∅ "")) (Raise ValueError))
           0 sample_world (VStr "website_2=s3ss10n") eq_refl).
Defined.

(** X17, witness: the vendor answers with the object [{"status": 0}]. *)
Lemma cameras_malformed_witness :
  (cameras (RT := scripted (Ok (reply 200 true "OK" ∅ "{..}"))
                    (Ok (VDict {[ "status" := VInt 0 ]}))) 0 sample_world).1
    = Raise TypeError.
Proof.
  destruct (cameras_malformed
              (RT := scripted (Ok (reply 200 true "OK" ∅ "{..}"))
                       (Ok (VDict {[ "status" := VInt 0 ]})))
              0 sample_world (VStr "website_2=s3ss10n") (reply 200 true "OK" ∅ "{..}")
              eq_refl eq_refl eq_refl) as (_ & _ & Hitems & _).
  apply (Hitems {[ "status" := VInt 0 ]}); reflexivity.
Defined.

(** X18, witness on the sample listing: three cameras, all new. *)
Lemma cameras_returns_new_instances_witness :
  exists ls,
    (cameras (RT := scripted (Ok (reply 200 true "OK" ∅ "{..}")) (Ok (VDict sample_listing)))
       0 sample_world).1 = Ok (VRef <$> ls) /\
    NoDup ls /\
    Forall (fun l => heap sample_world !! l = None) ls.
Proof.
  destruct (cameras (RT := scripted (Ok (reply 200 true "OK" ∅ "{..}"))
                             (Ok (VDict sample_listing))) 0 sample_world)
    as [[out|e] w'] eqn:E.
  - destruct (cameras_returns_new_instances
                (RT := scripted (Ok (reply 200 true "OK" ∅ "{..}"))
                         (Ok (VDict sample_listing)))
                0 sample_world out w' E) as (ls & -> & Hn & Hc & _).
    exists ls. split; [reflexivity|]. split; [exact Hn|].
    eapply Forall_impl; [exact Hc|]. simpl. tauto.
  - vm_compute in E. discriminate E.
Defined.

(** ** Decimal numerals *)

Section Numerals.

Lemma digit_cases (d : N) :
  (d < 10)%N ->
  d = 0%N \/ d = 1%N \/ d = 2%N \/ d = 3%N \/ d = 4%N \/
  d = 5%N \/ d = 6%N \/ d = 7%N \/ d = 8%N \/ d = 9%N.
Proof. lia. Qed.

Lemma digit_of_char (d : N) :
  (d < 10)%N -> digit_of (pretty_N_char d) = Some (Z.of_N d).
Proof.
  intros Hd. destruct (digit_cases d Hd) as [->|[->|[->|[->|[->|[->|[->|[->|[->| ->]]]]]]]]];
    reflexivity.
Qed.

(** Reading the digits that [pretty] wrote for [x] in front of [s] continues
    with [s] and the number read so far shifted and increased by [x]. *)
Lemma digits_pretty_go (x : N) :
  (0 < x)%N ->
  exists k, 0 <= k /\
    forall s acc any,
      digits (pretty_N_go x s) acc any = digits s (acc * 10 ^ k + Z.of_N x) true.
Proof.
  induction (N.lt_wf_0 x) as [x _ IH]. intros Hx.
  assert (Hd : (x `mod` 10 < 10)%N) by (apply N.mod_lt; lia).
  destruct (decide (x `div` 10 = 0)%N) as [Hz|Hz].
  - exists 1. split; [lia|]. intros s acc any.
    rewrite pretty_N_go_step by exact Hx. rewrite Hz, pretty_N_go_0.
    cbn [digits]. rewrite (digit_of_char _ Hd).
    f_equal. assert (x `mod` 10 = x)%N by (apply N.mod_small, N.div_small_iff; lia).
    lia.
  - destruct (IH (x `div` 10)%N) as (k & Hk & E).
    { apply N.div_lt; lia. }
    { now apply N.neq_0_lt_0. }
    exists (k + 1). split; [lia|]. intros s acc any.
    rewrite pretty_N_go_step by exact Hx. rewrite E.
    cbn [digits]. rewrite (digit_of_char _ Hd). f_equal.
    rewrite Z.pow_add_r by lia.
    pose proof (N.div_mod x 10 ltac:(lia)) as Hdm.
    assert (Z.of_N x = 10 * Z.of_N (x `div` 10) + Z.of_N (x `mod` 10)) by lia.
    lia.
Qed.

(** A positive number is written with a digit in front. *)
Lemma pretty_go_head (x : N) :
  (0 < x)%N ->
  forall s, exists d rest,
    (d < 10)%N /\ pretty_N_go x s = String (pretty_N_char d) rest.
Proof.
  induction (N.lt_wf_0 x) as [x _ IH]. intros Hx s.
  rewrite pretty_N_go_step by exact Hx.
  destruct (decide (x `div` 10 = 0)%N) as [Hz|Hz].
  - rewrite Hz, pretty_N_go_0. exists (x `mod` 10)%N, s.
    split; [apply N.mod_lt; lia | reflexivity].
  - apply IH; [apply N.div_lt; lia | now apply N.neq_0_lt_0].
Qed.

Lemma int_of_string_digits (s : string) (d : N) rest :
  (d < 10)%N -> s = String (pretty_N_char d) rest ->
  int_of_string s = match digits s 0 false with Some z => Ok z | None => Raise ValueError end /\
  int_of_string (String "-" s) =
    match digits s 0 false with Some z => Ok (- z) | None => Raise ValueError end.
Proof.
  intros Hd ->.
  destruct (digit_cases d Hd) as [->|[->|[->|[->|[->|[->|[->|[->|[->| ->]]]]]]]]];
    (split; [reflexivity|]); unfold int_of_string; cbn [lstrip is_space nat_of_ascii];
    simpl; now destruct (digits rest _ true).
Qed.

End Numerals.

(** [int] reads back what [str] writes for an integer. *)
Lemma int_of_string_pretty (z : Z) : int_of_string (pretty z) = Ok z.
Proof.
  destruct z as [|p|p]; [reflexivity| |].
  - change (pretty (Z.pos p)) with (pretty_N_go (N.pos p) "").
    destruct (pretty_go_head (N.pos p) ltac:(lia) "") as (d & rest & Hd & E).
    destruct (int_of_string_digits _ d rest Hd E) as [-> _].
    destruct (digits_pretty_go (N.pos p) ltac:(lia)) as (k & _ & ->).
    simpl. reflexivity.
  - change (pretty (Z.neg p)) with (String "-" (pretty_N_go (N.pos p) "")).
    destruct (pretty_go_head (N.pos p) ltac:(lia) "") as (d & rest & Hd & E).
    destruct (int_of_string_digits _ d rest Hd E) as [_ ->].
    destruct (digits_pretty_go (N.pos p) ltac:(lia)) as (k & _ & ->).
    simpl. reflexivity.
Qed.

Section MoreOutcomes.
Context `{RT : Runtime}.

(** X21.  The length check reads decimal numerals as the numbers they
    denote: for every integer [n], an ok response with status 200 whose
    content-length header is [n] written in decimal is returned by
    [get_image] when [n] is not 0 and raises [ConnectionError] when it is. *)
Theorem get_image_decimal_length self width seconds w uuid cookie r (n : Z) :
  camera_session w self = Some (uuid, cookie) ->
  http (sent w) (image_call uuid width seconds cookie) = Ok r ->
  ok r = true ->
  status_code r = 200 ->
  headers r !! "content-length" = Some (pretty n) ->
  (get_image self width seconds w).1 = if n =? 0 then Raise unavailable else Ok r.
Proof.
  intros Hs Hr Hok H200 Hh.
  rewrite (get_image_run _ _ _ _ _ _ Hs), Hr, Hok, H200. simpl.
  unfold content_length. rewrite Hh, int_of_string_pretty.
  now destruct (n =? 0).
Qed.

(** X19.  On a camera whose [get_image] is the method of its class (its
    dictionary has no key of that name), [save_image] is [get_image] between
    opening and writing a file: when the file can be opened it returns
    exactly when [get_image] returns and raises what [get_image] raises, it
    sends the request [get_image] sends and no other, and it changes no
    instance. *)
Theorem save_image_follows_get_image self path width seconds w :
  writable path = true ->
  attr w self "get_image" = None ->
  (save_image self path width seconds w).1 =
    match (get_image self width seconds w).1 with
    | Ok _ => Ok tt
    | Raise e => Raise e
    end /\
  sent (save_image self path width seconds w).2 = sent (get_image self width seconds w).2 /\
  heap (save_image self path width seconds w).2 = heap w.
Proof.
  intros Hw Hn. rewrite (save_image_run _ _ _ _ _ Hw Hn).
  pose proof (heap_stable_get_image self width seconds w) as Hh.
  destruct (get_image self width seconds w) as [[r|e] w']; simpl in *; auto.
Qed.

(** X20.  A property the vendor refuses surfaces as the transport error: on
    a camera with a string uuid, for a name and a value that are None,
    booleans, numbers or strings, when the response to the POST is not ok,
    [set_property] raises the generic [Exception] with the reason phrase,
    and when the library raises, its exception propagates; in both cases the
    one call has been made. *)
Theorem set_property_rejected self name value_ w u cookie :
  camera_session w self = Some (VStr u, cookie) ->
  plain name = true -> plain value_ = true ->
  let c := property_call u name value_ cookie in
  (forall r, http (sent w) c = Ok r -> ok r = false ->
     set_property self name value_ w =
       (Raise (Exception [VStr (reason r)]), set_sent (sent w ++ [c]) w)) /\
  (forall e, http (sent w) c = Raise e ->
     set_property self name value_ w = (Raise e, set_sent (sent w ++ [c]) w)).
Proof.
  intros Hs _ _ c. rewrite (set_property_run _ _ _ _ _ _ Hs). fold c. split.
  - intros r -> ->. reflexivity.
  - intros e ->. reflexivity.
Qed.

End MoreOutcomes.

(** X21, witness on the sample camera: an image of 48213 bytes. *)
Lemma get_image_decimal_length_witness :
  (get_image (RT := scripted (Ok (reply 200 true "OK" {[ "content-length" := "48213" ]} "JFIF.."))
                             (Raise ValueError))
     1 default_width default_seconds sample_world).1
    = Ok (reply 200 true "OK" {[ "content-length" := "48213" ]} "JFIF..").
Proof.
  exact (get_image_decimal_length
           (RT := scripted (Ok (reply 200 true "OK" {[ "content-length" := "48213" ]} "JFIF.."))
                           (Raise ValueError))
           1 default_width default_seconds sample_world
           (VStr "c4m3r4") (VStr "website_2=s3ss10n")
           (reply 200 true "OK" {[ "content-length" := "48213" ]} "JFIF..") 48213
           eq_refl eq_refl eq_refl eq_refl eq_refl).
Defined.

(** X19, witness on the sample camera while it is offline. *)
Lemma save_image_follows_get_image_witness :
  (save_image (RT := scripted (Ok (reply 200 true "OK" {[ "content-length" := "0" ]} ""))
                              (Raise ValueError))
     1 "porch.jpg" default_width default_seconds sample_world).1 = Raise unavailable.
Proof.
  exact (proj1 (save_image_follows_get_image
                  (RT := scripted (Ok (reply 200 true "OK" {[ "content-length" := "0" ]} ""))
                                  (Raise ValueError))
                  1 "porch.jpg" default_width default_seconds sample_world
                  eq_refl eq_refl)).
Defined.

(** X20, witness on the sample camera: the vendor answers 400. *)
Lemma set_property_rejected_witness :
  set_property (RT := scripted (Ok (reply 400 false "Bad Request" ∅ "")) (Raise ValueError))
     1 (VStr "irled.state") (VStr "sometimes") sample_world
    = (Raise (Exception [VStr "Bad Request"]),
       set_sent [property_call (RT := scripted (Ok (reply 400 false "Bad Request" ∅ ""))
                                               (Raise ValueError))
                   "c4m3r4" (VStr "irled.state") (VStr "sometimes")
                   (VStr "website_2=s3ss10n")] sample_world).
Proof.
  destruct (set_property_rejected
              (RT := scripted (Ok (reply 400 false "Bad Request" ∅ "")) (Raise ValueError))
              1 (VStr "irled.state") (VStr "sometimes") sample_world
              "c4m3r4" (VStr "website_2=s3ss10n") eq_refl eq_refl eq_refl) as [Hbad _].
  exact (Hbad (reply 400 false "Bad Request" ∅ "") eq_refl eq_refl).
Defined.

(** ** The script *)

Section ScriptProperties.
Context `{RT : Runtime}.
Variable exn_str : exn -> string.

Lemma main_loop_result i cams c w :
  (main_loop i cams c w).1.1 = Ok tt \/
  exists e, (main_loop i cams c w).1.1 = Raise e.
Proof.
  destruct (main_loop i cams c w) as [[[[]|e] c'] w']; simpl; eauto.
Qed.

(** X22.  The script lets exactly one kind of failure escape: when the
    constructor raises (the login failed), the script raises the same
    exception and prints nothing.  Once the account exists, every exception
    of the listing or of the loop is caught, so the script ends normally. *)
Theorem main_raises_only_from_constructor username password c w :
  (forall e, (new_Dropcam username password w).1 = Raise e ->
     main exn_str username password c w
       = (Raise e, c, (new_Dropcam username password w).2)) /\
  (forall d, (new_Dropcam username password w).1 = Ok d ->
     (main exn_str username password c w).1.1 = Ok tt).
Proof.
  unfold main. destruct (new_Dropcam username password w) as [[d|e] w1]; simpl.
  - split; [discriminate|]. intros _ _.
    destruct (cameras d w1) as [[cams|e] w2]; [|reflexivity].
    destruct (main_loop 0 cams c w2) as [[[[]|e] c'] w3]; reflexivity.
  - split; [|discriminate]. now intros e' [= ->].
Qed.

Lemma main_loop_offline cams :
  forall i c w,
    forallb (is_offline w) cams = true ->
    exists c', main_loop i cams c w = (Ok tt, c', w).
Proof.
  induction cams as [|cam cams IH]; intros i c w Hall; cbn [main_loop].
  - eauto.
  - cbn [forallb] in Hall. apply andb_true_iff in Hall as [Hcam Hrest].
    unfold is_offline in Hcam. destruct cam as [| | | | | | |l]; try discriminate.
    destruct (attr w l "title") as [title|] eqn:Et; [|discriminate].
    destruct (attr w l "is_online") as [online|] eqn:Eo; [|discriminate].
    rewrite (getattr_attr _ _ _ _ Et), (getattr_attr _ _ _ _ Eo), Hcam.
    apply IH, Hrest.
Qed.

(** X23.  Cameras that are off are skipped: when the account is constructed
    and every camera of the listing has a title and an [is_online] that is
    false, the script ends normally in the world the listing left.  Beyond
    the login and the listing no request is made and no file is created. *)
Theorem main_skips_offline username password c w d w1 cams w2 :
  new_Dropcam username password w = (Ok d, w1) ->
  cameras d w1 = (Ok cams, w2) ->
  forallb (is_offline w2) cams = true ->
  exists c', main exn_str username password c w = (Ok tt, c', w2).
Proof.
  intros Hd Hc Hall. unfold main. rewrite Hd, Hc.
  destruct (main_loop_offline cams 0 c w2 Hall) as (c' & ->). eauto.
Qed.



End ScriptProperties.

(** X23, witness: the vendor lists one camera, which is off.  The script
    sends the login and the listing and leaves the files as they were. *)
Lemma main_skips_offline_witness :
  exists c' w',
    main (RT := offline_vendor) sample_exn_str
      (VStr "ann@example.org") (VStr "hunter2") blank_console empty_world
      = (Ok tt, c', w') /\
    length (sent w') = 2%nat /\ files w' = files empty_world.
Proof.
  destruct (main_skips_offline (RT := offline_vendor) sample_exn_str
              (VStr "ann@example.org") (VStr "hunter2") blank_console empty_world
              0%nat
              (new_Dropcam (RT := offline_vendor)
                 (VStr "ann@example.org") (VStr "hunter2") empty_world).2
              [VRef 1]
              (cameras (RT := offline_vendor) 0
                 (new_Dropcam (RT := offline_vendor)
                    (VStr "ann@example.org") (VStr "hunter2") empty_world).2).2)
    as (c' & E).
  - vm_compute. reflexivity.
  - vm_compute. reflexivity.
  - vm_compute. reflexivity.
  - exists c'. eexists. split; [exact E|].
    split; vm_compute; reflexivity.
Defined.



(** ** Events as objects *)

Section EventObjects.
Context `{RT : Runtime}.

(** X26.  [Event(camera, params)] with a dictionary for [params] makes one
    new instance and changes nothing else.  The instance answers every key
    of [params] with its value, so a key called [camera] hides the camera
    the event was made for; without such a key [camera] is the first
    argument, and no other attribute exists.  With [None], a number or a
    boolean for [params] the constructor raises TypeError and no instance
    enters the heap. *)
Theorem new_Event_attributes camera params w :
  (exists ev w',
     new_Event camera (VDict params) w = (Ok (VRef ev), w') /\
     heap w !! ev = None /\
     (forall l, l <> ev -> heap w' !! l = heap w !! l) /\
     sent w' = sent w /\ files w' = files w /\
     forall k,
       attr w' ev k =
         match params !! k with
         | Some v => Some v
         | None => if decide (k = "camera") then Some camera else None
         end) /\
  (forall v, (v = VNone \/ (exists b, v = VBool b) \/ (exists n, v = VInt n)) ->
     new_Event camera v w = (Raise TypeError, w)).
Proof.
  split.
  - exists (fresh (dom (heap w))),
           (set_heap (<[fresh (dom (heap w)) :=
                          Obj ClsEvent (params ∪ {[ "camera" := camera ]})]> (heap w)) w).
    split; [reflexivity|]. split; [apply fresh_address_free|].
    split; [|split; [reflexivity|split; [reflexivity|]]].
    + intros l Hl. simpl. now apply lookup_insert_ne.
    + intros k. unfold attr. simpl. rewrite lookup_insert_eq. simpl.
      destruct (params !! k) as [v|] eqn:E.
      * now apply lookup_union_Some_l.
      * rewrite lookup_union_r by exact E.
        destruct (decide (k = "camera")) as [->|Hk].
        -- apply lookup_singleton_eq.
        -- now apply lookup_singleton_ne.
  - intros v [-> | [[b ->] | [n ->]]]; reflexivity.
Qed.

End EventObjects.
